(** * alsa2pipe: the silence detector and the streaming loop

    A shallow embedding of [silent], [runhook] and [run] of alsa2pipe.c,
    for an LP64 Linux target ([int] and [unsigned] are 32 bits wide, [long],
    [snd_pcm_sframes_t] and [size_t] are 64 bits wide), followed by the
    properties of the silence detector and of the connection state machine. *)

From Stdlib Require Import ZArith List Bool Lia String Ascii.
From Stdlib Require Import Init.Byte.
From Stdlib Require Strings.Byte.
Import ListNotations.

Local Open Scope Z_scope.

(** ** Machine integers *)

Definition INT_MAX : Z := 2 ^ 31 - 1.
Definition UINT_MAX : Z := 2 ^ 32 - 1.

(** The value of a [w]-bit two's-complement pattern. *)
Definition to_signed (w : Z) (z : Z) : Z :=
  (z + 2 ^ (w - 1)) mod 2 ^ w - 2 ^ (w - 1).

(** Conversion of an [int] to [unsigned], as the usual arithmetic
    conversions do when an [int] meets an [unsigned]. *)
Definition to_unsigned (z : Z) : Z := z mod 2 ^ 32.

(** [x++] on an [int], with the two's-complement wrap-around written out. *)
Definition int_incr (z : Z) : Z := to_signed 32 (z + 1).

(** Conversion to [size_t]. *)
Definition to_size_t (z : Z) : Z := z mod 2 ^ 64.

(** Linux error numbers used by the loop. *)
Definition ENODEV : Z := 19.
Definition EAGAIN : Z := 11.
Definition EWOULDBLOCK : Z := 11.

(** ** Sample formats *)

(** The values of [snd_pcm_format_t] that [main] can select. *)
Inductive snd_pcm_format_t : Type :=
| SND_PCM_FORMAT_S8
| SND_PCM_FORMAT_U8
| SND_PCM_FORMAT_S16_LE
| SND_PCM_FORMAT_S16_BE
| SND_PCM_FORMAT_S24_LE
| SND_PCM_FORMAT_S24_BE
| SND_PCM_FORMAT_S32_LE
| SND_PCM_FORMAT_S32_BE.

(** Modelled from the spec: [snd_pcm_format_width] belongs to the ALSA
    library and is not part of the sources; it gives the number of
    significant bits of a sample: 8, 16, 24 or 32 for the formats above. *)
Definition snd_pcm_format_width (format : snd_pcm_format_t) : Z :=
  match format with
  | SND_PCM_FORMAT_S8 | SND_PCM_FORMAT_U8 => 8
  | SND_PCM_FORMAT_S16_LE | SND_PCM_FORMAT_S16_BE => 16
  | SND_PCM_FORMAT_S24_LE | SND_PCM_FORMAT_S24_BE => 24
  | SND_PCM_FORMAT_S32_LE | SND_PCM_FORMAT_S32_BE => 32
  end.

(** ** The capture buffer *)

(** The buffer is the byte array behind [void *buffer]. *)
Definition buffer_t : Type := list byte.

(** The byte at offset [k]; offsets past the end of the array, which C leaves
    undefined, read as zero. *)
Definition byte_at (buffer : buffer_t) (k : Z) : Z :=
  if k <? 0 then 0
  else Z.of_N (Byte.to_N (nth (Z.to_nat k) buffer x00)).

(** The unsigned value of the [n] bytes that start at offset [k], in the byte
    order of the host (little-endian). *)
Fixpoint bytes_at (buffer : buffer_t) (n : nat) (k : Z) : Z :=
  match n with
  | O => 0
  | S n' => byte_at buffer k + 256 * bytes_at buffer n' (k + 1)
  end.

(** [data[i]] for [data] the buffer seen as an array of [int8_t], of
    [int16_t] and of [int32_t]. *)
Definition load_int8 (buffer : buffer_t) (i : Z) : Z :=
  to_signed 8 (bytes_at buffer 1 i).
Definition load_int16 (buffer : buffer_t) (i : Z) : Z :=
  to_signed 16 (bytes_at buffer 2 (2 * i)).
Definition load_int32 (buffer : buffer_t) (i : Z) : Z :=
  to_signed 32 (bytes_at buffer 4 (4 * i)).

(** ** The silence detector *)

(** The loop [for (i = ...; i < frames; i++) if (data[i] != data[i % channels])
    return 0;] of [silent], for the element type read by [load]. [left] is
    [frames - i], the number of iterations still to run: the loop test
    [i < frames] holds exactly when [left] is a successor. The result is
    [false] when the loop returns 0 and [true] when it runs to its end. *)
Fixpoint silent_loop (load : Z -> Z) (channels : Z) (left : nat) (i : Z)
  : bool :=
  match left with
  | O => true
  | S left' =>
      if negb (load i =? load (Z.rem i channels)) then false
      else silent_loop load channels left' (i + 1)
  end.

(** [silent(buffer, frames, format, channels)]; [true] stands for 1. *)
Definition silent (buffer : buffer_t) (frames : Z)
    (format : snd_pcm_format_t) (channels : Z) : bool :=
  if (channels =? 0) || (frames <=? channels) then false
  else
    let iterations := Z.to_nat (frames - channels) in
    match snd_pcm_format_width format with
    | 8 => silent_loop (load_int8 buffer) channels iterations channels
    | 16 => silent_loop (load_int16 buffer) channels iterations channels
    | 32 => silent_loop (load_int32 buffer) channels iterations channels
    | _ => false
    end.

(** [sample buffer format i] is sample number [i] of the block, read with the
    element type that [silent] uses for [format]. *)
Definition sample (buffer : buffer_t) (format : snd_pcm_format_t) (i : Z)
  : Z :=
  match snd_pcm_format_width format with
  | 8 => load_int8 buffer i
  | 16 => load_int16 buffer i
  | 32 => load_int32 buffer i
  | _ => 0
  end.

(** ** The world of the streaming loop *)

(** The globals [pipename], [onconnect] and [ondisconnect]; a hook that is
    [NULL] is [None]. *)
Record globals : Type := Globals {
  pipename : string;
  onconnect : option string;
  ondisconnect : option string
}.

(** What [fork] returns in the process that runs the loop: -1, or the
    identifier of the child. The [case 0] branch of [runhook] runs in the
    child, which executes the hook program or exits, and never comes back to
    the loop. *)
Inductive fork_result : Type :=
| fork_failed
| fork_child (pid : Z).

(** The lines written to [stderr]. *)
Inductive message : Type :=
| msg_fork_failed
| msg_source_error (size frames : Z)
| msg_silence_detected
| msg_source_connected
| msg_pipe_open
| msg_pipe_write.

(** The calls by which the loop acts on its environment, with their
    results. *)
Inductive event : Type :=
| ev_readi (size : Z)
| ev_stderr (msg : message)
| ev_fork (prog : string) (result : fork_result)
| ev_close (fd : Z)
| ev_open (path : string) (result : Z)
| ev_write (fd : Z) (buffer : buffer_t) (count : Z) (result : Z)
| ev_nanosleep (sec nsec : Z).

(** The locals [connected], [silence] and [pipefd] of [run], and the
    descriptors that [open] has returned and [close] has not yet released. *)
Record machine : Type := Machine {
  connected : Z;
  silence : Z;
  pipefd : Z;
  open_fds : list Z
}.

Definition set_connected (v : Z) (m : machine) : machine :=
  Machine v (silence m) (pipefd m) (open_fds m).
Definition set_silence (v : Z) (m : machine) : machine :=
  Machine (connected m) v (pipefd m) (open_fds m).
Definition set_pipefd (v : Z) (m : machine) : machine :=
  Machine (connected m) (silence m) v (open_fds m).
Definition set_open_fds (v : list Z) (m : machine) : machine :=
  Machine (connected m) (silence m) (pipefd m) v.

(** What the environment answers during one iteration of the loop: the
    result of [snd_pcm_readi] and the bytes it left in the buffer, and, for
    the calls the iteration comes to make, the results of [fork] in the two
    hooks, of [open] and of [write] (with [errno]). *)
Record input : Type := Input {
  in_size : Z;
  in_buffer : buffer_t;
  in_fork_disconnect : fork_result;
  in_open : Z;
  in_fork_connect : fork_result;
  in_write : Z;
  in_errno : Z
}.

(** ** A monad for the loop body *)

(** How a statement of the loop body ends: it falls through to the next
    statement, or runs [continue], or runs [return]. *)
Inductive flow (A : Type) : Type :=
| Next (a : A)
| Continue
| Return.
Arguments Next {A} a.
Arguments Continue {A}.
Arguments Return {A}.

Definition M (A : Type) : Type := machine -> flow A * machine * list event.

Definition ret {A} (a : A) : M A := fun m => (Next a, m, []).

Definition bind {A B} (c : M A) (k : A -> M B) : M B :=
  fun m =>
    match c m with
    | (Next a, m1, evs1) =>
        match k a m1 with
        | (f, m2, evs2) => (f, m2, evs1 ++ evs2)
        end
    | (Continue, m1, evs1) => (Continue, m1, evs1)
    | (Return, m1, evs1) => (Return, m1, evs1)
    end.

Notation "x <- c ;; k" := (bind c (fun x => k))
  (at level 61, c at next level, right associativity).
Notation "c ;; k" := (bind c (fun _ => k))
  (at level 61, right associativity).

Definition get : M machine := fun m => (Next m, m, []).
Definition modify (f : machine -> machine) : M unit :=
  fun m => (Next tt, f m, []).
Definition emit (e : event) : M unit := fun m => (Next tt, m, [e]).
Definition continue {A} : M A := fun m => (Continue, m, []).
Definition return_ {A} : M A := fun m => (Return, m, []).
Definition when (b : bool) (c : M unit) : M unit := if b then c else ret tt.

(** ** System calls *)

Definition sys_close (fd : Z) : M unit :=
  emit (ev_close fd) ;;
  modify (fun m => set_open_fds (remove Z.eq_dec fd (open_fds m)) m).

(** [open] returns a negative number on failure and otherwise a descriptor,
    which is open from then on. *)
Definition sys_open (path : string) (result : Z) : M Z :=
  emit (ev_open path result) ;;
  when (0 <=? result)
       (modify (fun m => set_open_fds (result :: open_fds m) m)) ;;
  ret result.

Definition sys_write (fd : Z) (buffer : buffer_t) (count result : Z) : M Z :=
  emit (ev_write fd buffer count result) ;;
  ret result.

Definition fprintf_stderr (msg : message) : M unit := emit (ev_stderr msg).

(** ** [runhook] *)

(** [runhook(prog)] in the process that runs the loop: it forks, reports a
    failed fork on [stderr], and returns. *)
Definition runhook (prog : string) (pid : fork_result) : M unit :=
  emit (ev_fork prog pid) ;;
  match pid with
  | fork_failed => fprintf_stderr msg_fork_failed
  | fork_child _ => ret tt
  end.

(** [if (hook) runhook(hook);] *)
Definition runhook_if_set (hook : option string) (pid : fork_result)
  : M unit :=
  match hook with
  | Some prog => runhook prog pid
  | None => ret tt
  end.

(** ** [run] *)

Section Run.

Variable g : globals.
Variables (frames : Z) (format : snd_pcm_format_t).
Variables (channels silence_max : Z).

Definition bufsize : Z :=
  to_size_t (frames * channels * Z.shiftr (snd_pcm_format_width format) 3).

(** The tests [silence < silence_max] and [silence == silence_max], in
    which the [int] is converted to [unsigned]. *)
Definition silence_lt_max (m : machine) : bool :=
  to_unsigned (silence m) <? silence_max.
Definition silence_eq_max (m : machine) : bool :=
  to_unsigned (silence m) =? silence_max.
Definition is_connected (m : machine) : bool := negb (connected m =? 0).

(** The branch [size == frames]: silence detection. *)
Definition detect_silence (buffer : buffer_t) : M unit :=
  m <- get ;;
  if silent buffer frames format channels then
    when (silence_lt_max m) (modify (set_silence (int_incr (silence m))))
  else
    modify (set_silence 0).

(** The branch [size != frames]: disconnect if connected, then leave on
    [-ENODEV], or sleep for a second and try again. *)
Definition read_error (size : Z) (pid : fork_result) : M unit :=
  m <- get ;;
  when (is_connected m)
       (fprintf_stderr (msg_source_error size frames) ;;
        modify (set_connected 0) ;;
        runhook_if_set (ondisconnect g) pid ;;
        sys_close (pipefd m)) ;;
  if size =? - ENODEV then return_
  else (emit (ev_nanosleep 1 0) ;; continue).

(** [if (connected && silence == silence_max) { ... }] *)
Definition disconnect_on_silence (pid : fork_result) : M unit :=
  m <- get ;;
  when (is_connected m && silence_eq_max m)
       (fprintf_stderr msg_silence_detected ;;
        runhook_if_set (ondisconnect g) pid ;;
        sys_close (pipefd m) ;;
        modify (set_silence (int_incr (silence m))) ;;
        modify (set_connected 0)).

(** [if (!connected && silence < silence_max) { ... }] *)
Definition reconnect (open_result : Z) (pid : fork_result) : M unit :=
  m <- get ;;
  when (negb (is_connected m) && silence_lt_max m)
       (fprintf_stderr msg_source_connected ;;
        fd <- sys_open (pipename g) open_result ;;
        modify (set_pipefd fd) ;;
        (if fd <? 0 then fprintf_stderr msg_pipe_open ;; return_
         else ret tt) ;;
        runhook_if_set (onconnect g) pid ;;
        modify (set_connected (int_incr (connected m)))).

(** [if (silence < silence_max) { rv = write(pipefd, buffer, bufsize); ... }] *)
Definition send (buffer : buffer_t) (write_result errno : Z) : M unit :=
  m <- get ;;
  when (silence_lt_max m)
       (rv <- sys_write (pipefd m) buffer bufsize write_result ;;
        when (rv =? -1)
             (if (errno =? EAGAIN) || (errno =? EWOULDBLOCK) then continue
              else fprintf_stderr msg_pipe_write ;; return_)).

(** One iteration of [for (;;) { ... }]. *)
Definition run_body (i : input) : M unit :=
  emit (ev_readi (in_size i)) ;;
  let size := in_size i in
  if size =? 0 then continue
  else
    (if size =? frames then detect_silence (in_buffer i)
     else read_error size (in_fork_disconnect i)) ;;
    disconnect_on_silence (in_fork_disconnect i) ;;
    reconnect (in_open i) (in_fork_connect i) ;;
    send (in_buffer i) (in_write i) (in_errno i).

(** How far the loop has come on a finite sequence of answers of the
    environment: it has returned, or it is about to read again. *)
Inductive status : Type :=
| Returned
| Reading.

Fixpoint run_loop (inputs : list input) (m : machine)
  : status * machine * list event :=
  match inputs with
  | [] => (Reading, m, [])
  | i :: rest =>
      match run_body i m with
      | (Return, m1, evs1) => (Returned, m1, evs1)
      | (_, m1, evs1) =>
          match run_loop rest m1 with
          | (s, m2, evs2) => (s, m2, evs1 ++ evs2)
          end
      end
  end.

(** The state in which [run] enters the loop; [pipefd] is not initialised
    and holds whatever [garbage] the stack does. *)
Definition initial (garbage : Z) : machine := Machine 0 0 garbage [].

Definition run (garbage : Z) (inputs : list input)
  : status * machine * list event :=
  run_loop inputs (initial garbage).

End Run.

(** The threshold [5 * rate / frames] that [main] passes to [run] ("5 seconds
    of silence to disconnect"): the product is computed in [unsigned], the
    quotient in [long], and the result is converted to [unsigned]. *)
Definition main_silence_max (rate frames : Z) : Z :=
  to_unsigned (Z.quot (to_unsigned (5 * rate)) frames).

(** ** Results of the loop body *)

Definition flow_of {A} (r : flow A * machine * list event) : flow A :=
  fst (fst r).
Definition machine_of {A B} (r : A * machine * B) : machine := snd (fst r).
Definition events_of {A B} (r : A * B * list event) : list event := snd r.

(** The trace of [if (hook) runhook(hook);]. *)
Definition hook_trace (hook : option string) (pid : fork_result)
  : list event :=
  match hook with
  | None => []
  | Some prog =>
      ev_fork prog pid ::
      match pid with
      | fork_failed => [ev_stderr msg_fork_failed]
      | fork_child _ => []
      end
  end.

(** The programs for which [runhook] has forked, in order. *)
Fixpoint forks (evs : list event) : list string :=
  match evs with
  | [] => []
  | ev_fork prog _ :: rest => prog :: forks rest
  | _ :: rest => forks rest
  end.

(** The number of times the silence trigger has fired in a trace. *)
Fixpoint triggers (evs : list event) : nat :=
  match evs with
  | [] => O
  | ev_stderr msg_silence_detected :: rest => S (triggers rest)
  | _ :: rest => triggers rest
  end.

(** The threshold leaves room for the step past it: [silence++] never
    overflows. *)
Definition threshold_ok (silence_max : Z) : Prop :=
  0 <= silence_max < INT_MAX.

(** The range of an [int]. *)
Definition is_int (z : Z) : Prop := - 2 ^ 31 <= z <= INT_MAX.

(** ** The sequence of states of a run *)

Section Transitions.

Variable g : globals.
Variables (frames : Z) (format : snd_pcm_format_t).
Variables (channels silence_max : Z).

(** The states in which the iterations of [run_loop] end, in order. *)
Fixpoint run_states (inputs : list input) (m : machine) : list machine :=
  match inputs with
  | [] => []
  | i :: rest =>
      match run_body g frames format channels silence_max i m with
      | (Return, m1, _) => [m1]
      | (_, m1, _) => m1 :: run_states rest m1
      end
  end.

Definition hook_list (hook : option string) : list string :=
  match hook with
  | Some prog => [prog]
  | None => []
  end.

(** The hooks due between two states: the disconnect hook when the first
    is connected and the second is not, the connect hook when the first is
    not connected and the second is. *)
Definition transition_hooks (m m' : machine) : list string :=
  (if is_connected m && negb (is_connected m')
   then hook_list (ondisconnect g) else []) ++
  (if negb (is_connected m) && is_connected m'
   then hook_list (onconnect g) else []).

(** The hooks due along a sequence of states that starts in [m]. *)
Fixpoint hooks_due (m : machine) (states : list machine) : list string :=
  match states with
  | [] => []
  | m' :: rest => transition_hooks m m' ++ hooks_due m' rest
  end.

End Transitions.

(** An iteration in which the two calls of [fork] answer [d] and [c]. *)
Definition with_forks (d c : fork_result) (i : input) : input :=
  Input (in_size i) (in_buffer i) d (in_open i) c (in_write i) (in_errno i).

(** The state a disconnect leaves behind. *)
Definition disconnected (m : machine) : machine :=
  Machine 0 (silence m) (pipefd m) (remove Z.eq_dec (pipefd m) (open_fds m)).

(** The trace of a disconnect: the line on [stderr], the disconnect hook,
    and the closing of the pipe. *)
Definition disconnect_trace (g : globals) (msg : message)
    (pid : fork_result) (m : machine) : list event :=
  ev_stderr msg :: hook_trace (ondisconnect g) pid ++ [ev_close (pipefd m)].

(** [errno == EAGAIN || errno == EWOULDBLOCK] *)
Definition would_block (errno : Z) : bool :=
  (errno =? EAGAIN) || (errno =? EWOULDBLOCK).

(** A result of the loop with [evs] in front of its trace. *)
Definition after_events {A} (evs : list event)
    (r : A * machine * list event) : A * machine * list event :=
  (fst (fst r), machine_of r, evs ++ events_of r).

(** The loop states its theorems speak of: the pipe is open exactly when
    [connected] is set, and [pipefd] is then its descriptor. *)
Definition handle_matches_state (m : machine) : Prop :=
  (connected m = 0 /\ open_fds m = []) \/
  (connected m = 1 /\ open_fds m = [pipefd m]).

(** How the [write] of an iteration ends it, and its trace. *)
Definition write_flow (i : input) : flow unit :=
  if in_write i =? -1 then
    if would_block (in_errno i) then Continue else Return
  else Next tt.

Definition write_trace (frames : Z) (format : snd_pcm_format_t)
    (channels : Z) (i : input) (m : machine) : list event :=
  ev_write (pipefd m) (in_buffer i) (bufsize frames format channels)
           (in_write i)
  :: (if (in_write i =? -1) && negb (would_block (in_errno i))
      then [ev_stderr msg_pipe_write] else []).

(** The trace of a successful connect, and the state it leaves behind. *)
Definition connect_trace (g : globals) (i : input) : list event :=
  ev_stderr msg_source_connected
  :: ev_open (pipename g) (in_open i)
  :: hook_trace (onconnect g) (in_fork_connect i).

Definition connected_on (fd : Z) (m : machine) : machine :=
  Machine (int_incr (connected m)) (silence m) fd (fd :: open_fds m).

(** A full-size read of a block that [silent] classifies as silent. *)
Definition silent_block (frames : Z) (format : snd_pcm_format_t)
    (channels : Z) (i : input) : Prop :=
  in_size i = frames /\
  silent (in_buffer i) frames format channels = true.

(** The counter is past the threshold: no test of the loop on it
    succeeds. *)
Definition spent (silence_max : Z) (m : machine) : Prop :=
  silence_lt_max silence_max m = false /\
  silence_eq_max silence_max m = false.

(** The calls of [write] in a trace, and the calls of [open] that failed. *)
Definition is_write (e : event) : bool :=
  match e with
  | ev_write _ _ _ _ => true
  | _ => false
  end.


(** ** Sample configuration and blocks *)

Definition sample_globals : globals :=
  Globals "/run/capture.fifo"%string (Some "/etc/on-connect"%string)
          (Some "/etc/on-disconnect"%string).

(** Full-size blocks of two frames of one 8-bit channel, the first silent,
    the second not, and reads that fall short, return nothing, or report that
    the device is gone. In all of them [open] answers descriptor 4 and
    [write] accepts the block. *)
Definition quiet_block : input :=
  Input 2 [x05; x05] (fork_child 101) 4 (fork_child 102) 2 0.
Definition loud_block : input :=
  Input 2 [x05; x06] (fork_child 101) 4 (fork_child 102) 2 0.
Definition short_read : input :=
  Input 1 [x05; x06] (fork_child 101) 4 (fork_child 102) 2 0.
Definition empty_read : input :=
  Input 0 [x05; x06] (fork_child 101) 4 (fork_child 102) 2 0.
Definition device_gone : input :=
  Input (- ENODEV) [x05; x06] fork_failed 4 (fork_child 102) 2 0.

(** ** Further vocabulary for the loop *)

(** Two states that differ at most in a [pipefd] that no descriptor has been
    stored in yet. *)
Definition same_but_pipefd (m1 m2 : machine) : Prop :=
  connected m1 = connected m2 /\ silence m1 = silence m2 /\
  open_fds m1 = open_fds m2 /\
  (connected m1 <> 0 -> pipefd m1 = pipefd m2).

(** The counter is between 0 and one past the threshold, and below the
    threshold while the loop is connected. *)
Definition counter_in_range (silence_max : Z) (m : machine) : Prop :=
  0 <= silence m <= silence_max + 1 /\
  (connected m <> 0 -> silence m < silence_max).

(** Reads and sleeps, the events of a loop that leaves the pipe alone. *)
Definition is_read_or_sleep (e : event) : bool :=
  match e with
  | ev_readi _ | ev_nanosleep _ _ => true
  | _ => false
  end.

Definition is_close (e : event) : bool :=
  match e with
  | ev_close _ => true
  | _ => false
  end.

(** ** [main] *)

(** The loop of [main] over the copy of [argv[2]]: it counts the characters
    up to the terminating NUL in [bufsize] and replaces every colon by a
    space. The result is [bufsize] and the buffer as a C string. *)
Fixpoint colons_to_spaces (s : string) : Z * string :=
  match s with
  | EmptyString => (0, EmptyString)
  | String c rest =>
      if Ascii.eqb c zero then (0, EmptyString)
      else
        let (n, buffer) := colons_to_spaces rest in
        (n + 1, String (if Ascii.eqb c ":" then " "%char else c) buffer)
  end.

(** [sizeof(sformat)] *)
Definition sizeof_sformat : Z := 32.

(** What [sscanf(buffer, "%s %u %u %ld", sformat, &rate, &channels, &frames)]
    leaves behind: its return value and the values it has stored. Only the
    first [sc_count] of them have been stored. *)
Record scanned : Type := Scanned {
  sc_count : Z;
  sc_sformat : string;
  sc_rate : Z;
  sc_channels : Z;
  sc_frames : Z
}.

(** The chain of [strcmp] on [sformat]. *)
Definition lookup_format (sformat : string) : option snd_pcm_format_t :=
  if String.eqb sformat "s8" then Some SND_PCM_FORMAT_S8
  else if String.eqb sformat "u8" then Some SND_PCM_FORMAT_U8
  else if String.eqb sformat "s16le" then Some SND_PCM_FORMAT_S16_LE
  else if String.eqb sformat "s16be" then Some SND_PCM_FORMAT_S16_BE
  else if String.eqb sformat "s24le" then Some SND_PCM_FORMAT_S24_LE
  else if String.eqb sformat "s24be" then Some SND_PCM_FORMAT_S24_BE
  else if String.eqb sformat "s32le" then Some SND_PCM_FORMAT_S32_LE
  else if String.eqb sformat "s32be" then Some SND_PCM_FORMAT_S32_BE
  else None.

(** The calls of the ALSA library that [main] makes. *)
Inductive alsa_call : Type :=
| snd_pcm_open (device : string)
| snd_pcm_hw_params_malloc
| snd_pcm_hw_params_any
| snd_pcm_hw_params_set_access
| snd_pcm_hw_params_set_format (format : snd_pcm_format_t)
| snd_pcm_hw_params_set_rate_near (rate : Z)
| snd_pcm_hw_params_set_channels (channels : Z)
| snd_pcm_hw_params
| snd_pcm_hw_params_free
| snd_pcm_prepare
| snd_pcm_close.

(** What the library answers to them: the error codes, the rate that
    [snd_pcm_hw_params_set_rate_near] stores, and whether [malloc] gives
    memory for the block. *)
Record alsa_answers : Type := Alsa {
  a_open : Z;
  a_params_malloc : Z;
  a_params_any : Z;
  a_set_access : Z;
  a_set_format : Z;
  a_set_rate_near : Z;
  a_rate : Z;
  a_set_channels : Z;
  a_hw_params : Z;
  a_prepare : Z;
  a_malloc : bool
}.

Inductive signal_t : Type :=
| SIGPIPE
| SIGCHLD.

(** The lines [main] writes to [stderr]. *)
Inductive main_message : Type :=
| msg_usage
| msg_format_too_long
| msg_unknown_format (arg : string)
| msg_unknown_frame_format (sformat : string)
| msg_cannot_open (device : string) (err : Z)
| msg_cannot_allocate_params (err : Z)
| msg_cannot_initialize_params (err : Z)
| msg_cannot_set_access (err : Z)
| msg_cannot_set_format (err : Z)
| msg_cannot_set_rate (err : Z)
| msg_cannot_set_channels (err : Z)
| msg_cannot_set_parameters (err : Z)
| msg_cannot_prepare (err : Z)
| msg_cannot_allocate_memory.

(** What [main] does to its environment: [signal(sig, SIG_IGN)], a line on
    [stderr], a call of the library whose result it tests, a call whose
    result it does not look at, [malloc] of the block, and the calls of
    [run]. *)
Inductive main_event : Type :=
| mev_ignore (sig : signal_t)
| mev_stderr (msg : main_message)
| mev_alsa (call : alsa_call) (result : Z)
| mev_alsa_unchecked (call : alsa_call)
| mev_malloc (size : Z) (ok : bool)
| mev_run (loop : list event).

(** How far [main] has come: it goes on with a value, or it has returned an
    exit status, or it is in the loop of [run], which has not returned. *)
Inductive progress (A : Type) : Type :=
| Go (a : A)
| Exit (status : Z)
| InLoop.
Arguments Go {A} a.
Arguments Exit {A} status.
Arguments InLoop {A}.

Definition P (A : Type) : Type := progress A * list main_event.

Definition and_then {A B} (c : P A) (k : A -> P B) : P B :=
  match c with
  | (Go a, evs1) => let (p, evs2) := k a in (p, evs1 ++ evs2)
  | (Exit status, evs1) => (Exit status, evs1)
  | (InLoop, evs1) => (InLoop, evs1)
  end.

Notation "c >>= k" := (and_then c k) (at level 50, left associativity).
Notation "c >> k" := (and_then c (fun _ => k))
  (at level 50, left associativity).

Definition go {A} (a : A) : P A := (Go a, []).
Definition exit_ {A} (status : Z) : P A := (Exit status, []).
Definition note (e : main_event) : P unit := (Go tt, [e]).

(** [if (cond) { fprintf(stderr, msg); return 1; }] *)
Definition reject_if (cond : bool) (msg : main_message) : P unit :=
  if cond then note (mev_stderr msg) >> exit_ 1 else go tt.

(** [if ((err = call) < 0) { fprintf(stderr, msg, snd_strerror(err));
    return 1; }] *)
Definition alsa (call : alsa_call) (err : Z) (msg : Z -> main_message)
  : P unit :=
  note (mev_alsa call err) >> reject_if (err <? 0) (msg err).

(** The call of [run] and what follows it. *)
Definition call_run (g : globals) (frames : Z) (format : snd_pcm_format_t)
    (channels silence_max garbage : Z) (inputs : list input) : P unit :=
  match run g frames format channels silence_max garbage inputs with
  | (Returned, _, evs) => note (mev_run evs)
  | (Reading, _, evs) => (InLoop, [mev_run evs])
  end.

(** What [main] has settled once it has read its arguments: the globals,
    the device [argv[1]], and the format, rate, channels and frames of the
    format option. *)
Record options : Type := Options {
  opt_globals : globals;
  opt_device : string;
  opt_format : snd_pcm_format_t;
  opt_rate : Z;
  opt_channels : Z;
  opt_frames : Z
}.

(** [frames] after [sscanf]: the default of 128 stays unless the fourth
    conversion has stored a value. *)
Definition frames_after (sc : scanned) : Z :=
  if 4 <=? sc_count sc then sc_frames sc else 128.

(** The first part of [main], from the test of [argc] to the hooks.
    [sscanf] stands for the conversion of the format option by the C
    library. [option_length] is the value of [bufsize] after the loop over
    the format option. The copies made by [strdup] and their release by
    [free] leave no trace. *)
Definition read_arguments (sscanf : string -> scanned) (argv : list string)
  : P options :=
  let argc := Z.of_nat (List.length argv) in
  let arg (k : nat) := nth k argv EmptyString in
  reject_if (argc <? 4) msg_usage >>
  (let (option_length, buffer) := colons_to_spaces (arg 2%nat) in
   reject_if (sizeof_sformat <=? option_length) msg_format_too_long >>
   (let sc := sscanf buffer in
    reject_if (sc_count sc <? 3) (msg_unknown_format (arg 2%nat)) >>
    (match lookup_format (sc_sformat sc) with
     | Some format => go format
     | None =>
         note (mev_stderr (msg_unknown_frame_format (sc_sformat sc))) >>
         exit_ 1
     end) >>= fun format =>
    reject_if (frames_after sc <=? 0)
              (msg_unknown_frame_format (sc_sformat sc)) >>
    go (Options
          (Globals (arg 3%nat)
                   (if 4 <? argc then Some (arg 4%nat) else None)
                   (if 5 <? argc then Some (arg 5%nat) else None))
          (arg 1%nat) format (sc_rate sc) (sc_channels sc)
          (frames_after sc)))).

(** The second part: the capture device is opened and configured. The
    result is the rate that [snd_pcm_hw_params_set_rate_near] has stored in
    [rate]. *)
Definition open_device (answers : alsa_answers) (o : options) : P Z :=
  alsa (snd_pcm_open (opt_device o)) (a_open answers)
       (msg_cannot_open (opt_device o)) >>
  alsa snd_pcm_hw_params_malloc (a_params_malloc answers)
       msg_cannot_allocate_params >>
  alsa snd_pcm_hw_params_any (a_params_any answers)
       msg_cannot_initialize_params >>
  alsa snd_pcm_hw_params_set_access (a_set_access answers)
       msg_cannot_set_access >>
  alsa (snd_pcm_hw_params_set_format (opt_format o)) (a_set_format answers)
       msg_cannot_set_format >>
  alsa (snd_pcm_hw_params_set_rate_near (opt_rate o))
       (a_set_rate_near answers) msg_cannot_set_rate >>
  alsa (snd_pcm_hw_params_set_channels (opt_channels o))
       (a_set_channels answers) msg_cannot_set_channels >>
  alsa snd_pcm_hw_params (a_hw_params answers) msg_cannot_set_parameters >>
  note (mev_alsa_unchecked snd_pcm_hw_params_free) >>
  alsa snd_pcm_prepare (a_prepare answers) msg_cannot_prepare >>
  go (a_rate answers).

(** The last part: the block is allocated, [run] is called, and after it the
    device is closed and [main] returns 0. *)
Definition capture (answers : alsa_answers) (garbage : Z)
    (inputs : list input) (o : options) (rate : Z) : P unit :=
  note (mev_malloc (bufsize (opt_frames o) (opt_format o) (opt_channels o))
                   (a_malloc answers)) >>
  reject_if (negb (a_malloc answers)) msg_cannot_allocate_memory >>
  call_run (opt_globals o) (opt_frames o) (opt_format o) (opt_channels o)
           (main_silence_max rate (opt_frames o)) garbage inputs >>
  note (mev_alsa_unchecked snd_pcm_close) >>
  exit_ 0.

(** [main(argc, argv)], with [argc] the length of [argv]; [answers] is what
    the ALSA library and [malloc] answer, and [garbage] and [inputs] are the
    environment of [run]. *)
Definition main (sscanf : string -> scanned) (answers : alsa_answers)
    (garbage : Z) (inputs : list input) (argv : list string) : P unit :=
  note (mev_ignore SIGPIPE) >>
  note (mev_ignore SIGCHLD) >>
  read_arguments sscanf argv >>= fun o =>
  open_device answers o >>= fun rate =>
  capture answers garbage inputs o rate.

(** The calls of [run] in a trace of [main], and the events that are no
    more than a signal disposition or a line on [stderr]. *)
Definition is_run (e : main_event) : bool :=
  match e with
  | mev_run _ => true
  | _ => false
  end.

Definition is_setup_or_message (e : main_event) : bool :=
  match e with
  | mev_ignore _ | mev_stderr _ => true
  | _ => false
  end.

Definition is_pcm_close (e : main_event) : bool :=
  match e with
  | mev_alsa_unchecked snd_pcm_close => true
  | _ => false
  end.

(** The exit status of [main], if it has returned. *)
Definition exit_status (r : P unit) : option Z :=
  match fst r with
  | Exit status => Some status
  | _ => None
  end.

(** A command line, a C library that converts its format option, and a
    sound card that accepts everything. *)
Definition sample_argv : list string :=
  ["alsa2pipe"; "hw:0"; "s8:8000:1:2"; "/run/capture.fifo";
   "/etc/on-connect"; "/etc/on-disconnect"]%string.

Definition sample_sscanf (buffer : string) : scanned :=
  if String.eqb buffer "s8 8000 1 2" then Scanned 4 "s8" 8000 1 2
  else Scanned 0 "" 0 0 0.

Definition sample_answers : alsa_answers :=
  Alsa 0 0 0 0 0 0 8000 0 0 0 true.

(** ** Unfolding the monad *)

Ltac unfold_monad :=
  cbv beta iota zeta delta
    [bind get when modify ret emit fprintf_stderr sys_close sys_open
     sys_write return_ continue runhook_if_set runhook app].

(** * Properties of the silence detector *)

Lemma silent_loop_true_iff (load : Z -> Z) (channels : Z) (left : nat) :
  forall i,
    silent_loop load channels left i = true <->
    (forall j, i <= j < i + Z.of_nat left -> load j = load (Z.rem j channels)).
Proof.
  induction left as [|left IH]; intros i.
  - simpl. split; [intros _ j Hj; lia | reflexivity].
  - cbn [silent_loop]. destruct (Z.eqb_spec (load i) (load (Z.rem i channels)))
      as [Heq | Hne]; cbn [negb].
    + rewrite IH. split.
      * intros H j Hj. destruct (Z.eq_dec j i) as [-> | Hji]; [exact Heq |].
        apply H. lia.
      * intros H j Hj. apply H. lia.
    + split; [discriminate |].
      intros H. exfalso. apply Hne. apply H. lia.
Qed.

(** What [silent] checks: the samples with index from [channels] up to
    [frames - 1], each against the sample of its channel in the first
    frame. *)
Lemma silent_true_iff (buffer : buffer_t) (frames : Z)
    (format : snd_pcm_format_t) (channels : Z) :
  1 <= channels -> channels < frames ->
  snd_pcm_format_width format <> 24 ->
  (silent buffer frames format channels = true <->
   forall i, channels <= i < frames ->
     sample buffer format i = sample buffer format (Z.rem i channels)).
Proof.
  intros Hc Hf Hw. unfold silent, sample.
  destruct (Z.eqb_spec channels 0) as [? | _]; [lia |].
  destruct (Z.leb_spec frames channels) as [? | _]; [lia |].
  cbn [orb].
  assert (Hn : channels + Z.of_nat (Z.to_nat (frames - channels)) = frames)
    by lia.
  destruct format; cbn [snd_pcm_format_width] in *; try congruence;
    rewrite silent_loop_true_iff, Hn; reflexivity.
Qed.

(** C1. On the block of 3 frames of 2 channels whose last sample alone is
    not zero, [silent] answers 1 although sample 5 differs from sample 1,
    the sample of its channel in the first frame: the loop stops at sample
    index [frames] and never reads the samples from [frames] up to
    [frames * channels - 1]. The same call on the all-zero block answers 1
    too, so flipping that sample does not change the answer. *)
Theorem silent_stops_at_frames :
  let block := [x00; x00; x00; x00; x00; x01] in
  let format := SND_PCM_FORMAT_S8 in
  silent block 3 format 2 = true /\
  silent [x00; x00; x00; x00; x00; x00] 3 format 2 = true /\
  2 <= 5 <= 3 * 2 - 1 /\
  sample block format 5 <> sample block format (Z.rem 5 2).
Proof.
  cbv zeta. repeat split; try reflexivity; try lia.
  vm_compute. discriminate.
Qed.

(** C9. [silent] answers 0 whenever there is no channel or the frame count
    does not exceed the channel count, whatever the block and the format. *)
Theorem silent_too_few_frames (buffer : buffer_t) (frames : Z)
    (format : snd_pcm_format_t) (channels : Z) :
  channels = 0 \/ frames <= channels ->
  silent buffer frames format channels = false.
Proof.
  intros H. unfold silent.
  destruct (Z.eqb_spec channels 0) as [_ | Hc]; [reflexivity |].
  destruct (Z.leb_spec frames channels) as [_ | Hf]; [reflexivity |].
  lia.
Qed.

Lemma silent_too_few_frames_witness :
  (2 = 0 \/ 2 <= 2) /\
  silent [x00; x00; x00; x00] 2 SND_PCM_FORMAT_U8 2 = false.
Proof.
  split; [right; lia |].
  apply (silent_too_few_frames [x00; x00; x00; x00] 2 SND_PCM_FORMAT_U8 2).
  right; lia.
Defined.

(** C10. [silent] answers 0 for every format whose width is none of 8, 16
    and 32, whatever the block. *)
Theorem silent_unsupported_width (buffer : buffer_t) (frames : Z)
    (format : snd_pcm_format_t) (channels : Z) :
  snd_pcm_format_width format <> 8 ->
  snd_pcm_format_width format <> 16 ->
  snd_pcm_format_width format <> 32 ->
  silent buffer frames format channels = false.
Proof.
  intros H8 H16 H32. unfold silent.
  destruct ((channels =? 0) || (frames <=? channels)); [reflexivity |].
  destruct format; cbn [snd_pcm_format_width] in *;
    try reflexivity; congruence.
Qed.

Lemma silent_unsupported_width_witness :
  snd_pcm_format_width SND_PCM_FORMAT_S24_LE <> 8 /\
  snd_pcm_format_width SND_PCM_FORMAT_S24_LE <> 16 /\
  snd_pcm_format_width SND_PCM_FORMAT_S24_LE <> 32 /\
  silent [x00; x00; x00; x00; x00; x00; x00; x00] 2 SND_PCM_FORMAT_S24_LE 1
  = false.
Proof.
  assert (H8 : snd_pcm_format_width SND_PCM_FORMAT_S24_LE <> 8)
    by (cbn; discriminate).
  assert (H16 : snd_pcm_format_width SND_PCM_FORMAT_S24_LE <> 16)
    by (cbn; discriminate).
  assert (H32 : snd_pcm_format_width SND_PCM_FORMAT_S24_LE <> 32)
    by (cbn; discriminate).
  split; [exact H8 |]. split; [exact H16 |]. split; [exact H32 |].
  exact (silent_unsupported_width
           [x00; x00; x00; x00; x00; x00; x00; x00] 2 SND_PCM_FORMAT_S24_LE 1
           H8 H16 H32).
Defined.

(** * Properties of the streaming loop *)

(** ** Machine integers *)

Lemma to_unsigned_small (z : Z) : 0 <= z <= UINT_MAX -> to_unsigned z = z.
Proof.
  unfold to_unsigned, UINT_MAX. intros H. apply Z.mod_small. lia.
Qed.

Lemma int_incr_small (z : Z) :
  - 2 ^ 31 <= z + 1 <= INT_MAX -> int_incr z = z + 1.
Proof.
  unfold int_incr, to_signed, INT_MAX. intros H.
  change (2 ^ (32 - 1)) with (2 ^ 31).
  rewrite Z.mod_small; lia.
Qed.

Lemma to_unsigned_int_incr (z : Z) :
  to_unsigned (int_incr z) = (to_unsigned z + 1) mod 2 ^ 32.
Proof.
  unfold to_unsigned, int_incr, to_signed.
  change (2 ^ (32 - 1)) with (2 ^ 31).
  rewrite Zminus_mod_idemp_l.
  replace (z + 1 + 2 ^ 31 - 2 ^ 31) with (z + 1) by lia.
  rewrite Zplus_mod_idemp_l. reflexivity.
Qed.

Lemma to_unsigned_range (z : Z) : 0 <= to_unsigned z <= UINT_MAX.
Proof.
  unfold to_unsigned, UINT_MAX.
  pose proof (Z.mod_pos_bound z (2 ^ 32) ltac:(lia)). lia.
Qed.

(** An [int] that the loop finds below a threshold in range, or equal to
    it, is that number itself. *)
Lemma to_unsigned_is_int (z silence_max : Z) :
  threshold_ok silence_max -> is_int z ->
  to_unsigned z <= silence_max -> to_unsigned z = z.
Proof.
  unfold threshold_ok, is_int, INT_MAX, to_unsigned. intros Hmax Hz Hle.
  destruct (Z_lt_le_dec z 0) as [Hneg | Hpos].
  - exfalso.
    assert (z mod 2 ^ 32 = z + 2 ^ 32); [| lia].
    symmetry. apply (Z.mod_unique_pos z (2 ^ 32) (-1)); lia.
  - apply Z.mod_small. lia.
Qed.

(** For the capture rates a sound card offers, the threshold that [main]
    computes is in range. *)
Lemma main_silence_max_ok (rate frames : Z) :
  0 <= rate <= 400000000 -> 0 < frames ->
  threshold_ok (main_silence_max rate frames).
Proof.
  intros Hrate Hframes. unfold main_silence_max, threshold_ok, INT_MAX.
  rewrite (to_unsigned_small (5 * rate)) by (unfold UINT_MAX; lia).
  assert (Hq : 0 <= Z.quot (5 * rate) frames <= 5 * rate).
  { split; [apply Z.quot_pos; lia |].
    rewrite Z.quot_div_nonneg by lia.
    apply Z.div_le_upper_bound; nia. }
  rewrite to_unsigned_small by (unfold UINT_MAX; lia). lia.
Qed.

(** ** The statements of the loop body, in closed form *)

Section Body.

Variable g : globals.
Variables (frames : Z) (format : snd_pcm_format_t).
Variables (channels silence_max : Z).

Lemma detect_silence_eq (buffer : buffer_t) (m : machine) :
  detect_silence frames format channels silence_max buffer m =
  (Next tt,
   if silent buffer frames format channels then
     if silence_lt_max silence_max m
     then set_silence (int_incr (silence m)) m else m
   else set_silence 0 m,
   []).
Proof.
  unfold detect_silence. unfold_monad.
  destruct (silent buffer frames format channels);
    [destruct (silence_lt_max silence_max m) |]; reflexivity.
Qed.

Lemma read_error_eq (size : Z) (pid : fork_result) (m : machine) :
  read_error g frames size pid m =
  (if size =? - ENODEV then Return else Continue,
   if is_connected m then disconnected m else m,
   (if is_connected m
    then ev_stderr (msg_source_error size frames)
         :: hook_trace (ondisconnect g) pid ++ [ev_close (pipefd m)]
    else []) ++
   (if size =? - ENODEV then [] else [ev_nanosleep 1 0])).
Proof.
  unfold read_error, disconnected, hook_trace. unfold_monad.
  destruct m as [c s fd fds]; cbn [connected silence pipefd open_fds].
  destruct (is_connected _), (ondisconnect g) as [prog |], pid,
    (size =? - ENODEV); reflexivity.
Qed.

Lemma disconnect_on_silence_eq (pid : fork_result) (m : machine) :
  disconnect_on_silence g silence_max pid m =
  if is_connected m && silence_eq_max silence_max m then
    (Next tt,
     set_silence (int_incr (silence m)) (disconnected m),
     ev_stderr msg_silence_detected
     :: hook_trace (ondisconnect g) pid ++ [ev_close (pipefd m)])
  else (Next tt, m, []).
Proof.
  unfold disconnect_on_silence, disconnected, hook_trace. unfold_monad.
  destruct m as [c s fd fds]; cbn [connected silence pipefd open_fds].
  destruct (is_connected _ && _), (ondisconnect g) as [prog |], pid;
    reflexivity.
Qed.

Lemma reconnect_eq (open_result : Z) (pid : fork_result) (m : machine) :
  reconnect g silence_max open_result pid m =
  if negb (is_connected m) && silence_lt_max silence_max m then
    if open_result <? 0 then
      (Return, set_pipefd open_result m,
       [ev_stderr msg_source_connected;
        ev_open (pipename g) open_result;
        ev_stderr msg_pipe_open])
    else
      (Next tt,
       Machine (int_incr (connected m)) (silence m) open_result
               (open_result :: open_fds m),
       ev_stderr msg_source_connected
       :: ev_open (pipename g) open_result
       :: hook_trace (onconnect g) pid)
  else (Next tt, m, []).
Proof.
  unfold reconnect, hook_trace. unfold_monad.
  destruct m as [c s fd fds]; cbn [connected silence pipefd open_fds].
  destruct (negb _ && _); [| reflexivity].
  destruct (Z.leb_spec 0 open_result); unfold_monad;
    destruct (Z.ltb_spec open_result 0); try lia;
    destruct (onconnect g) as [prog |], pid; reflexivity.
Qed.

Lemma send_eq (buffer : buffer_t) (result errno : Z) (m : machine) :
  send frames format channels silence_max buffer result errno m =
  if silence_lt_max silence_max m then
    (if result =? -1 then
       if (errno =? EAGAIN) || (errno =? EWOULDBLOCK) then Continue
       else Return
     else Next tt,
     m,
     ev_write (pipefd m) buffer (bufsize frames format channels) result
     :: (if (result =? -1)
            && negb ((errno =? EAGAIN) || (errno =? EWOULDBLOCK))
         then [ev_stderr msg_pipe_write] else []))
  else (Next tt, m, []).
Proof.
  unfold send. unfold_monad.
  destruct (silence_lt_max silence_max m); [| reflexivity].
  destruct (result =? -1); [| reflexivity].
  destruct ((errno =? EAGAIN) || (errno =? EWOULDBLOCK)); reflexivity.
Qed.

End Body.

(** ** One iteration, by the result of the read *)

Section Iteration.

Variable g : globals.
Variables (frames : Z) (format : snd_pcm_format_t).
Variables (channels silence_max : Z).

(** A read of zero frames. *)
Lemma run_body_zero (i : input) (m : machine) :
  in_size i = 0 ->
  run_body g frames format channels silence_max i m
  = (Continue, m, [ev_readi 0]).
Proof.
  intros Hz. unfold run_body. unfold_monad. rewrite Hz. reflexivity.
Qed.

(** A read that is neither empty nor full. *)
Lemma run_body_error (i : input) (m : machine) :
  in_size i <> 0 -> in_size i <> frames ->
  run_body g frames format channels silence_max i m =
  (if in_size i =? - ENODEV then Return else Continue,
   if is_connected m then disconnected m else m,
   ev_readi (in_size i) ::
   (if is_connected m
    then ev_stderr (msg_source_error (in_size i) frames)
         :: hook_trace (ondisconnect g) (in_fork_disconnect i)
         ++ [ev_close (pipefd m)]
    else []) ++
   (if in_size i =? - ENODEV then [] else [ev_nanosleep 1 0])).
Proof.
  intros Hz Hf. unfold run_body. unfold_monad.
  destruct (Z.eqb_spec (in_size i) 0); [contradiction |].
  destruct (Z.eqb_spec (in_size i) frames); [contradiction |].
  rewrite read_error_eq.
  destruct (in_size i =? - ENODEV); reflexivity.
Qed.

Lemma detect_silence_next (buffer : buffer_t) (m : machine) :
  detect_silence frames format channels silence_max buffer m
  = (Next tt,
     machine_of (detect_silence frames format channels silence_max buffer m),
     []).
Proof. rewrite detect_silence_eq. reflexivity. Qed.

Lemma disconnect_on_silence_next (pid : fork_result) (m : machine) :
  disconnect_on_silence g silence_max pid m
  = (Next tt,
     machine_of (disconnect_on_silence g silence_max pid m),
     events_of (disconnect_on_silence g silence_max pid m)).
Proof.
  rewrite disconnect_on_silence_eq.
  destruct (is_connected m && _); reflexivity.
Qed.

Lemma run_body_phases (i : input) (m m1 m2 : machine)
    (evs2 : list event) :
  in_size i = frames -> frames <> 0 ->
  detect_silence frames format channels silence_max (in_buffer i) m
  = (Next tt, m1, []) ->
  disconnect_on_silence g silence_max (in_fork_disconnect i) m1
  = (Next tt, m2, evs2) ->
  run_body g frames format channels silence_max i m =
  match reconnect g silence_max (in_open i) (in_fork_connect i) m2 with
  | (Next _, m3, evs3) =>
      match send frames format channels silence_max (in_buffer i)
              (in_write i) (in_errno i) m3 with
      | (f, m4, evs4) => (f, m4, ev_readi frames :: evs2 ++ evs3 ++ evs4)
      end
  | (f, m3, evs3) => (f, m3, ev_readi frames :: evs2 ++ evs3)
  end.
Proof.
  intros Hsize Hf H1 H2. unfold run_body. unfold_monad.
  rewrite Hsize.
  destruct (Z.eqb_spec frames 0); [contradiction |].
  rewrite Z.eqb_refl, H1, H2.
  destruct (reconnect _ _ _ _ m2) as [[[[] | |] m3] evs3]; try reflexivity.
  destruct (send _ _ _ _ _ _ _ m3) as [[f4 m4] evs4]. reflexivity.
Qed.

(** A full read: the four statements that follow it, one after the
    other. *)
Lemma run_body_full (i : input) (m : machine) :
  in_size i = frames -> frames <> 0 ->
  let m1 := machine_of (detect_silence frames format channels silence_max
                          (in_buffer i) m) in
  let r2 := disconnect_on_silence g silence_max (in_fork_disconnect i) m1 in
  run_body g frames format channels silence_max i m =
  match reconnect g silence_max (in_open i) (in_fork_connect i)
          (machine_of r2) with
  | (Next _, m3, evs3) =>
      match send frames format channels silence_max (in_buffer i)
              (in_write i) (in_errno i) m3 with
      | (f, m4, evs4) =>
          (f, m4, ev_readi frames :: events_of r2 ++ evs3 ++ evs4)
      end
  | (f, m3, evs3) => (f, m3, ev_readi frames :: events_of r2 ++ evs3)
  end.
Proof.
  intros Hsize Hf m1 r2.
  apply (run_body_phases i m m1); trivial.
  - apply detect_silence_next.
  - apply disconnect_on_silence_next.
Qed.

End Iteration.

(** ** Reads that are not full *)

(** C2, as it stands, fails: after one silent block the counter is 1, and
    the short read that follows leaves it at 1. *)
Lemma short_read_leaves_counter_at_one :
  let before :=
    machine_of (run sample_globals 2 SND_PCM_FORMAT_S8 1 3 0 [quiet_block]) in
  let after :=
    machine_of (run_body sample_globals 2 SND_PCM_FORMAT_S8 1 3
                         short_read before) in
  in_size short_read < 2 /\ silence before = 1 /\ silence after = 1 /\
  silence after <> 0.
Proof. cbv zeta. repeat split; try reflexivity. vm_compute. discriminate. Qed.

Section ReadFailureHandling.

Variable g : globals.
Variables (frames : Z) (format : snd_pcm_format_t).
Variables (channels silence_max : Z).

(** C6. In an iteration whose read is empty or not full: a read of zero
    frames changes nothing and the loop reads again at once; any other
    such read disconnects if connected (a line on [stderr], the disconnect
    hook, the pipe closed, [connected] cleared), and then either the read
    reported [-ENODEV] and [run] returns, so that nothing is read after it,
    or the loop sleeps for one second and reads again. *)
Theorem read_failure_handling (i : input) (m : machine)
    (rest : list input) :
  in_size i = 0 \/ in_size i <> frames ->
  let size := in_size i in
  let m' := if is_connected m then disconnected m else m in
  let bookkeeping :=
    if is_connected m
    then disconnect_trace g (msg_source_error size frames)
           (in_fork_disconnect i) m
    else [] in
  run_body g frames format channels silence_max i m =
    (if size =? 0 then (Continue, m, [ev_readi size])
     else if size =? - ENODEV
          then (Return, m', ev_readi size :: bookkeeping)
          else (Continue, m',
                ev_readi size :: bookkeeping ++ [ev_nanosleep 1 0])) /\
  run_loop g frames format channels silence_max (i :: rest) m =
    (if size =? 0
     then after_events [ev_readi size]
            (run_loop g frames format channels silence_max rest m)
     else if size =? - ENODEV
          then (Returned, m', ev_readi size :: bookkeeping)
          else after_events
                 (ev_readi size :: bookkeeping ++ [ev_nanosleep 1 0])
                 (run_loop g frames format channels silence_max rest m')).
Proof.
  intros H. cbv zeta.
  assert (Hbody :
    run_body g frames format channels silence_max i m =
    (if in_size i =? 0 then (Continue, m, [ev_readi (in_size i)])
     else if in_size i =? - ENODEV
          then (Return, if is_connected m then disconnected m else m,
                ev_readi (in_size i) ::
                (if is_connected m
                 then disconnect_trace g
                        (msg_source_error (in_size i) frames)
                        (in_fork_disconnect i) m
                 else []))
          else (Continue, if is_connected m then disconnected m else m,
                ev_readi (in_size i) ::
                (if is_connected m
                 then disconnect_trace g
                        (msg_source_error (in_size i) frames)
                        (in_fork_disconnect i) m
                 else []) ++ [ev_nanosleep 1 0]))).
  { destruct (Z.eqb_spec (in_size i) 0) as [Hz | Hnz].
    - rewrite run_body_zero by exact Hz. rewrite Hz. reflexivity.
    - rewrite run_body_error by tauto.
      unfold disconnect_trace.
      destruct (in_size i =? - ENODEV); rewrite ?app_nil_r; reflexivity. }
  split; [exact Hbody |].
  cbn [run_loop]. rewrite Hbody. unfold after_events, machine_of, events_of.
  destruct (in_size i =? 0);
    [| destruct (in_size i =? - ENODEV); [reflexivity |]];
    destruct (run_loop g frames format channels silence_max rest _)
      as [[s m2] evs2]; reflexivity.
Qed.

End ReadFailureHandling.

Lemma read_failure_handling_witness :
  (in_size device_gone = 0 \/ in_size device_gone <> 2) /\
  (in_size short_read = 0 \/ in_size short_read <> 2) /\
  (in_size empty_read = 0 \/ in_size empty_read <> 2) /\
  run_loop sample_globals 2 SND_PCM_FORMAT_S8 1 3
           [device_gone; loud_block] (Machine 1 0 4 [4])
  = (Returned, Machine 0 0 4 [],
     [ev_readi (- ENODEV);
      ev_stderr (msg_source_error (- ENODEV) 2);
      ev_fork "/etc/on-disconnect" fork_failed;
      ev_stderr msg_fork_failed;
      ev_close 4]) /\
  run_body sample_globals 2 SND_PCM_FORMAT_S8 1 3 short_read
           (Machine 1 0 4 [4])
  = (Continue, Machine 0 0 4 [],
     [ev_readi 1;
      ev_stderr (msg_source_error 1 2);
      ev_fork "/etc/on-disconnect" (fork_child 101);
      ev_close 4;
      ev_nanosleep 1 0]) /\
  run_body sample_globals 2 SND_PCM_FORMAT_S8 1 3 empty_read
           (Machine 1 0 4 [4])
  = (Continue, Machine 1 0 4 [4], [ev_readi 0]).
Proof.
  assert (Hgone : in_size device_gone = 0 \/ in_size device_gone <> 2)
    by (right; cbn; lia).
  assert (Hshort : in_size short_read = 0 \/ in_size short_read <> 2)
    by (right; cbn; lia).
  assert (Hempty : in_size empty_read = 0 \/ in_size empty_read <> 2)
    by (left; reflexivity).
  split; [exact Hgone |]. split; [exact Hshort |]. split; [exact Hempty |].
  split; [| split].
  - exact (proj2 (read_failure_handling sample_globals 2 SND_PCM_FORMAT_S8
                    1 3 device_gone (Machine 1 0 4 [4]) [loud_block] Hgone)).
  - exact (proj1 (read_failure_handling sample_globals 2 SND_PCM_FORMAT_S8
                    1 3 short_read (Machine 1 0 4 [4]) [] Hshort)).
  - exact (proj1 (read_failure_handling sample_globals 2 SND_PCM_FORMAT_S8
                    1 3 empty_read (Machine 1 0 4 [4]) [] Hempty)).
Defined.

(** ** Full reads *)

Section FullRead.

Variable g : globals.
Variables (frames : Z) (format : snd_pcm_format_t).
Variables (channels silence_max : Z).

Lemma send_cases (i : input) (m : machine) :
  send frames format channels silence_max (in_buffer i) (in_write i)
       (in_errno i) m =
  if silence_lt_max silence_max m
  then (write_flow i, m, write_trace frames format channels i m)
  else (Next tt, m, []).
Proof. rewrite send_eq. reflexivity. Qed.

(** A full read, from the state [m2] in which the silence trigger leaves
    the loop. *)
Lemma run_body_full_cases (i : input) (m : machine) :
  in_size i = frames -> frames <> 0 ->
  let m1 := machine_of (detect_silence frames format channels silence_max
                          (in_buffer i) m) in
  let r2 := disconnect_on_silence g silence_max (in_fork_disconnect i) m1 in
  let m2 := machine_of r2 in
  run_body g frames format channels silence_max i m =
  if silence_lt_max silence_max m2 then
    if is_connected m2 then
      (write_flow i, m2,
       ev_readi frames :: events_of r2
         ++ write_trace frames format channels i m2)
    else if in_open i <? 0 then
      (Return, set_pipefd (in_open i) m2,
       ev_readi frames :: events_of r2
         ++ [ev_stderr msg_source_connected;
             ev_open (pipename g) (in_open i);
             ev_stderr msg_pipe_open])
    else
      (write_flow i, connected_on (in_open i) m2,
       ev_readi frames :: events_of r2
         ++ connect_trace g i
         ++ write_trace frames format channels i
              (connected_on (in_open i) m2))
  else (Next tt, m2, ev_readi frames :: events_of r2).
Proof.
  intros Hsize Hf m1 r2 m2.
  rewrite (run_body_full g frames format channels silence_max i m Hsize Hf).
  fold m1. fold r2. fold m2.
  rewrite reconnect_eq.
  destruct (silence_lt_max silence_max m2) eqn:Hlt;
    destruct (is_connected m2) eqn:Hc; cbn [negb andb].
  - rewrite send_cases, Hlt. reflexivity.
  - destruct (in_open i <? 0); [reflexivity |].
    rewrite send_cases.
    change (silence_lt_max silence_max
              (Machine (int_incr (connected m2)) (silence m2) (in_open i)
                       (in_open i :: open_fds m2)))
      with (silence_lt_max silence_max m2).
    rewrite Hlt. reflexivity.
  - rewrite send_cases, Hlt. rewrite !app_nil_r. reflexivity.
  - rewrite send_cases, Hlt. rewrite !app_nil_r. reflexivity.
Qed.

(** Once the trigger has stepped past a threshold in range, the counter is
    neither below the threshold nor equal to it. *)
Lemma past_threshold (s : Z) :
  threshold_ok silence_max ->
  to_unsigned s = silence_max ->
  to_unsigned (int_incr s) = silence_max + 1.
Proof.
  unfold threshold_ok, INT_MAX. intros Hmax Hs.
  rewrite to_unsigned_int_incr, Hs. apply Z.mod_small. lia.
Qed.

End FullRead.

(** ** The silence counter *)

Section Counter.

Variable g : globals.
Variables (frames : Z) (format : snd_pcm_format_t).
Variables (channels silence_max : Z).
Hypothesis Hmax : threshold_ok silence_max.

Lemma silence_lt_max_int (m : machine) :
  is_int (silence m) ->
  (silence_lt_max silence_max m = true <-> 0 <= silence m < silence_max).
Proof.
  intros Hint. unfold silence_lt_max. rewrite Z.ltb_lt. split.
  - intros Hlt.
    assert (Hu : to_unsigned (silence m) = silence m)
      by (apply (to_unsigned_is_int _ silence_max); trivial; lia).
    pose proof (to_unsigned_range (silence m)) as Hr.
    rewrite Hu in Hlt, Hr. lia.
  - intros Hs. rewrite to_unsigned_small; [lia |].
    unfold threshold_ok, INT_MAX in Hmax. unfold UINT_MAX. lia.
Qed.

Lemma silence_eq_max_int (m : machine) :
  is_int (silence m) ->
  (silence_eq_max silence_max m = true <-> silence m = silence_max).
Proof.
  intros Hint. unfold silence_eq_max. rewrite Z.eqb_eq. split.
  - intros Heq.
    assert (Hu : to_unsigned (silence m) = silence m)
      by (apply (to_unsigned_is_int _ silence_max); trivial; lia).
    rewrite Hu in Heq. exact Heq.
  - intros Hs. rewrite to_unsigned_small; [exact Hs |].
    unfold threshold_ok, INT_MAX in Hmax. unfold UINT_MAX. lia.
Qed.

Lemma is_int_int_incr (z : Z) : is_int (int_incr z).
Proof.
  unfold is_int, int_incr, to_signed, INT_MAX.
  change (2 ^ (32 - 1)) with (2 ^ 31).
  pose proof (Z.mod_pos_bound (z + 1 + 2 ^ 31) (2 ^ 32) ltac:(lia)). lia.
Qed.

(** The counter after the silence detection of a full read. *)
Lemma detect_silence_counter (buffer : buffer_t) (m : machine) :
  is_int (silence m) ->
  let m1 := machine_of (detect_silence frames format channels silence_max
                          buffer m) in
  silence m1 =
    (if silent buffer frames format channels
     then if silence_lt_max silence_max m then silence m + 1 else silence m
     else 0) /\
  is_int (silence m1) /\
  connected m1 = connected m /\ pipefd m1 = pipefd m /\
  open_fds m1 = open_fds m.
Proof.
  intros Hint. cbv zeta. rewrite detect_silence_eq.
  unfold machine_of; cbn [fst snd].
  destruct (silent buffer frames format channels).
  - destruct (silence_lt_max silence_max m) eqn:Hlt.
    + apply silence_lt_max_int in Hlt; [| exact Hint].
      cbn [set_silence silence connected pipefd open_fds].
      unfold threshold_ok, INT_MAX in Hmax.
      rewrite int_incr_small by (unfold INT_MAX; lia).
      repeat split; unfold is_int, INT_MAX; try lia.
    + repeat split; apply Hint.
  - cbn [set_silence silence connected pipefd open_fds].
    repeat split; unfold is_int, INT_MAX; lia.
Qed.

(** The counter after the silence trigger. *)
Lemma disconnect_on_silence_counter (pid : fork_result) (m : machine) :
  is_int (silence m) ->
  let m2 := machine_of (disconnect_on_silence g silence_max pid m) in
  silence m2 =
    (if is_connected m && (silence m =? silence_max)
     then silence_max + 1 else silence m) /\
  is_int (silence m2).
Proof.
  intros Hint. cbv zeta. rewrite disconnect_on_silence_eq.
  pose proof (silence_eq_max_int m Hint) as Heq.
  destruct (is_connected m); cbn [andb].
  - destruct (silence_eq_max silence_max m) eqn:He.
    + assert (Hs : silence m = silence_max) by (apply Heq; reflexivity).
      rewrite Hs, Z.eqb_refl.
      unfold machine_of; cbn [fst snd set_silence silence].
      unfold threshold_ok in Hmax.
      rewrite int_incr_small by (unfold INT_MAX in *; lia).
      split; [reflexivity |]. unfold is_int, INT_MAX in *. lia.
    + destruct (Z.eqb_spec (silence m) silence_max) as [Hs | _].
      * apply Heq in Hs. congruence.
      * split; [reflexivity | exact Hint].
  - split; [reflexivity | exact Hint].
Qed.

(** A full read leaves the counter as the silence trigger left it. *)
Lemma full_read_counter (i : input) (m : machine) :
  in_size i = frames -> frames <> 0 ->
  silence (machine_of (run_body g frames format channels silence_max i m))
  = silence
      (machine_of
         (disconnect_on_silence g silence_max (in_fork_disconnect i)
            (machine_of (detect_silence frames format channels silence_max
                           (in_buffer i) m)))).
Proof.
  intros Hsize Hf.
  rewrite (run_body_full_cases g frames format channels silence_max i m
             Hsize Hf).
  cbv zeta.
  destruct (silence_lt_max _ _); [| reflexivity].
  destruct (is_connected _); [reflexivity |].
  destruct (in_open i <? 0); reflexivity.
Qed.

(** One silent block never lowers the counter. *)
Lemma silent_block_counter (i : input) (m : machine) :
  is_int (silence m) ->
  silent_block frames format channels i ->
  let m' :=
    machine_of (run_body g frames format channels silence_max i m) in
  silence m <= silence m' /\ is_int (silence m').
Proof.
  intros Hint [Hsize Hsilent]. cbv zeta.
  destruct (Z.eq_dec frames 0) as [Hz | Hnz].
  - rewrite run_body_zero by congruence.
    split; [apply Z.le_refl | exact Hint].
  - rewrite full_read_counter by assumption.
    destruct (detect_silence_counter (in_buffer i) m Hint)
      as (Hs1 & Hint1 & _).
    rewrite Hsilent in Hs1.
    destruct (disconnect_on_silence_counter (in_fork_disconnect i) _ Hint1)
      as (Hs2 & Hint2).
    split; [| exact Hint2].
    rewrite Hs2.
    set (m1 := machine_of (detect_silence _ _ _ _ _ m)) in *.
    assert (Hle : silence m <= silence m1)
      by (rewrite Hs1; destruct (silence_lt_max silence_max m); lia).
    destruct (is_connected m1 && (silence m1 =? silence_max)) eqn:Htrig;
      [| exact Hle].
    apply andb_prop in Htrig. destruct Htrig as [_ Htrig].
    apply Z.eqb_eq in Htrig. lia.
Qed.

End Counter.

(** ** The silence trigger *)

Lemma triggers_app (evs1 evs2 : list event) :
  triggers (evs1 ++ evs2) = (triggers evs1 + triggers evs2)%nat.
Proof.
  induction evs1 as [| e evs1 IH]; [reflexivity |].
  destruct e as [| [] | | | | |]; cbn [app triggers]; rewrite IH; reflexivity.
Qed.

Lemma triggers_hook_trace (hook : option string) (pid : fork_result) :
  triggers (hook_trace hook pid) = O.
Proof. destruct hook, pid; reflexivity. Qed.

Lemma triggers_write_trace (frames : Z) (format : snd_pcm_format_t)
    (channels : Z) (i : input) (m : machine) :
  triggers (write_trace frames format channels i m) = O.
Proof.
  unfold write_trace. destruct (_ && _); reflexivity.
Qed.

Lemma triggers_connect_trace (g : globals) (i : input) :
  triggers (connect_trace g i) = O.
Proof. unfold connect_trace. cbn [triggers]. apply triggers_hook_trace. Qed.

Lemma triggers_disconnect_trace (g : globals) (pid : fork_result)
    (m : machine) :
  triggers (disconnect_trace g msg_silence_detected pid m) = 1%nat.
Proof.
  unfold disconnect_trace. cbn [triggers].
  rewrite triggers_app, triggers_hook_trace. reflexivity.
Qed.

Section Trigger.

Variable g : globals.
Variables (frames : Z) (format : snd_pcm_format_t).
Variables (channels silence_max : Z).
Hypothesis Hmax : threshold_ok silence_max.

Lemma spent_past_threshold (m : machine) :
  silence m = silence_max + 1 -> spent silence_max m.
Proof.
  intros Hs. unfold spent, silence_lt_max, silence_eq_max.
  unfold threshold_ok, INT_MAX in Hmax.
  rewrite Hs, to_unsigned_small by (unfold UINT_MAX; lia).
  split; [apply Z.ltb_ge | apply Z.eqb_neq]; lia.
Qed.

Lemma spent_silent_block (i : input) (m : machine) :
  silent_block frames format channels i -> spent silence_max m ->
  exists f,
    run_body g frames format channels silence_max i m
    = (f, m, [ev_readi frames]) /\ f <> Return.
Proof.
  intros [Hsize Hsilent] [Hlt Heq].
  destruct (Z.eq_dec frames 0) as [Hz | Hnz].
  - exists Continue. rewrite run_body_zero by congruence.
    rewrite Hz. split; [reflexivity | discriminate].
  - exists (Next tt). split; [| discriminate].
    rewrite (run_body_full_cases g frames format channels silence_max i m
               Hsize Hnz).
    cbv zeta.
    assert (H1 : machine_of (detect_silence frames format channels
                               silence_max (in_buffer i) m) = m)
      by (rewrite detect_silence_eq, Hsilent, Hlt; reflexivity).
    assert (H2 : disconnect_on_silence g silence_max
                   (in_fork_disconnect i) m = (Next tt, m, []))
      by (rewrite disconnect_on_silence_eq, Heq, andb_false_r;
          reflexivity).
    rewrite H1, H2. unfold machine_of, events_of; cbn [fst snd].
    rewrite Hlt. reflexivity.
Qed.

Lemma spent_silent_run (inputs : list input) (m : machine) :
  Forall (silent_block frames format channels) inputs -> spent silence_max m ->
  run_loop g frames format channels silence_max inputs m
  = (Reading, m, map (fun _ => ev_readi frames) inputs).
Proof.
  intros Hall Hm. induction Hall as [| i rest Hi Hrest IH];
    [reflexivity |].
  cbn [run_loop map].
  destruct (spent_silent_block i m Hi Hm) as (f & Hbody & Hf).
  rewrite Hbody, IH. destruct f as [[] | |]; [reflexivity .. | congruence].
Qed.

(** On a silent block the trigger fires at most once, and leaves the
    counter past the threshold when it does. *)
Lemma silent_block_triggers (i : input) (m : machine) :
  silent_block frames format channels i ->
  let r := run_body g frames format channels silence_max i m in
  triggers (events_of r) = O \/
  (triggers (events_of r) = 1%nat /\ spent silence_max (machine_of r)).
Proof.
  intros [Hsize Hsilent]. cbv zeta.
  destruct (Z.eq_dec frames 0) as [Hz | Hnz].
  { left. rewrite run_body_zero by congruence. reflexivity. }
  rewrite (run_body_full_cases g frames format channels silence_max i m
             Hsize Hnz).
  cbv zeta.
  set (m1 := machine_of (detect_silence _ _ _ _ _ m)).
  rewrite disconnect_on_silence_eq.
  destruct (is_connected m1 && silence_eq_max silence_max m1) eqn:Htrig.
  - right. apply andb_prop in Htrig. destruct Htrig as [_ Heq].
    apply Z.eqb_eq in Heq.
    assert (Hpast : spent silence_max (set_silence (int_incr (silence m1))
                                       (disconnected m1))).
    { unfold spent, silence_lt_max, silence_eq_max.
      cbn [set_silence silence].
      rewrite (past_threshold silence_max _ Hmax Heq).
      split; [apply Z.ltb_ge | apply Z.eqb_neq]; lia. }
    cbn [machine_of events_of fst snd].
    destruct Hpast as [Hlt Heq']. rewrite Hlt.
    cbn [machine_of events_of fst snd triggers].
    rewrite triggers_app, triggers_hook_trace.
    split; [reflexivity | split; assumption].
  - left. cbn [machine_of events_of fst snd app].
    destruct (silence_lt_max silence_max m1); [| reflexivity].
    destruct (is_connected m1).
    + cbn [events_of snd triggers]. apply triggers_write_trace.
    + destruct (in_open i <? 0); [reflexivity |].
      cbn [events_of snd triggers].
      rewrite triggers_app, triggers_connect_trace, triggers_write_trace.
      reflexivity.
Qed.

Lemma trigger_at_threshold (pid : fork_result) (m : machine) :
  is_connected m = true -> silence m = silence_max ->
  disconnect_on_silence g silence_max pid m =
  (Next tt,
   Machine 0 (silence_max + 1) (pipefd m)
           (remove Z.eq_dec (pipefd m) (open_fds m)),
   disconnect_trace g msg_silence_detected pid m).
Proof.
  intros Hc Hs. rewrite disconnect_on_silence_eq, Hc.
  assert (Hint : is_int (silence m)).
  { unfold is_int, threshold_ok, INT_MAX in *. lia. }
  assert (Heq : silence_eq_max silence_max m = true)
    by (apply silence_eq_max_int; assumption).
  rewrite Heq. cbn [andb]. unfold disconnected, set_silence.
  cbn [connected silence pipefd open_fds].
  rewrite Hs, int_incr_small
    by (unfold threshold_ok, INT_MAX in *; lia).
  reflexivity.
Qed.

(** The iteration in which a silent block takes the counter to the
    threshold. *)
Lemma threshold_iteration (i : input) (m : machine) :
  silent_block frames format channels i -> frames <> 0 ->
  is_connected m = true -> 0 <= silence m -> silence m + 1 = silence_max ->
  run_body g frames format channels silence_max i m =
  (Next tt,
   Machine 0 (silence_max + 1) (pipefd m)
           (remove Z.eq_dec (pipefd m) (open_fds m)),
   ev_readi frames
   :: disconnect_trace g msg_silence_detected (in_fork_disconnect i) m).
Proof.
  intros [Hsize Hsilent] Hf Hc Hs0 Hs.
  rewrite (run_body_full_cases g frames format channels silence_max i m
             Hsize Hf).
  cbv zeta.
  assert (Hint : is_int (silence m)).
  { unfold is_int, threshold_ok, INT_MAX in *. lia. }
  assert (Hlt : silence_lt_max silence_max m = true)
    by (apply silence_lt_max_int; trivial; lia).
  assert (H1 : machine_of (detect_silence frames format channels
                             silence_max (in_buffer i) m)
               = set_silence silence_max m).
  { rewrite detect_silence_eq, Hsilent, Hlt. cbn [machine_of fst snd].
    rewrite int_incr_small
      by (unfold threshold_ok, INT_MAX in *; lia).
    rewrite Hs. reflexivity. }
  rewrite H1.
  rewrite (trigger_at_threshold (in_fork_disconnect i)
             (set_silence silence_max m) Hc eq_refl).
  cbn [machine_of events_of fst snd set_silence pipefd open_fds].
  assert (Hpast : spent silence_max
                    (Machine 0 (silence_max + 1) (pipefd m)
                       (remove Z.eq_dec (pipefd m) (open_fds m))))
    by (apply spent_past_threshold; reflexivity).
  destruct Hpast as [Hlt2 _]. rewrite Hlt2. reflexivity.
Qed.

(** C3. When the loop is connected and the counter equals the threshold,
    the trigger writes its line on [stderr], runs the disconnect hook,
    closes the pipe, clears [connected] and leaves the counter one past the
    threshold; in every other state it does nothing. The iteration in which
    a silent block takes the counter to the threshold does this and nothing
    else: it neither reconnects nor writes. From then on silent full-size
    blocks leave the state as it is and cause nothing but reads. Over any
    sequence of consecutive silent full-size blocks the trigger fires at
    most once. *)
Theorem disconnect_trigger_fires_once :
  (forall (pid : fork_result) (m : machine),
      is_connected m = true -> silence m = silence_max ->
      disconnect_on_silence g silence_max pid m =
      (Next tt,
       Machine 0 (silence_max + 1) (pipefd m)
               (remove Z.eq_dec (pipefd m) (open_fds m)),
       disconnect_trace g msg_silence_detected pid m)) /\
  (forall (pid : fork_result) (m : machine),
      is_int (silence m) ->
      is_connected m = false \/ silence m <> silence_max ->
      disconnect_on_silence g silence_max pid m = (Next tt, m, [])) /\
  (forall (i : input) (m : machine),
      silent_block frames format channels i -> frames <> 0 ->
      is_connected m = true -> 0 <= silence m ->
      silence m + 1 = silence_max ->
      run_body g frames format channels silence_max i m =
      (Next tt,
       Machine 0 (silence_max + 1) (pipefd m)
               (remove Z.eq_dec (pipefd m) (open_fds m)),
       ev_readi frames
       :: disconnect_trace g msg_silence_detected (in_fork_disconnect i)
            m)) /\
  (forall (inputs : list input) (m : machine),
      Forall (silent_block frames format channels) inputs ->
      silence m = silence_max + 1 ->
      run_loop g frames format channels silence_max inputs m
      = (Reading, m, map (fun _ => ev_readi frames) inputs)) /\
  (forall (inputs : list input) (m : machine),
      Forall (silent_block frames format channels) inputs ->
      (triggers
         (events_of (run_loop g frames format channels silence_max
                              inputs m)) <= 1)%nat).
Proof.
  split; [| split; [| split; [| split]]].
  - exact trigger_at_threshold.
  - intros pid m Hint Hcase. rewrite disconnect_on_silence_eq.
    destruct Hcase as [Hc | Hs].
    + rewrite Hc. reflexivity.
    + destruct (silence_eq_max silence_max m) eqn:Heq.
      * apply silence_eq_max_int in Heq; [contradiction | assumption ..].
      * rewrite andb_false_r. reflexivity.
  - exact threshold_iteration.
  - intros inputs m Hall Hs.
    apply spent_silent_run; [exact Hall |].
    apply spent_past_threshold. exact Hs.
  - intros inputs. induction inputs as [| i rest IH]; intros m Hall.
    + cbn. lia.
    + inversion Hall as [| ? ? Hi Hrest]; subst.
      pose proof (silent_block_triggers i m Hi) as Hstep.
      cbv zeta in Hstep. cbn [run_loop].
      destruct (run_body g frames format channels silence_max i m)
        as [[f m1] evs1].
      unfold events_of, machine_of in Hstep; cbn [fst snd] in Hstep.
      assert (Hrun :
        (triggers
           (events_of
              (match run_loop g frames format channels silence_max rest m1
               with (s, m2, evs2) => (s, m2, evs1 ++ evs2) end))
         <= 1)%nat).
      { destruct Hstep as [H0 | [H1 Hspent]].
        - specialize (IH m1 Hrest).
          destruct (run_loop g frames format channels silence_max rest m1)
            as [[s m2] evs2].
          unfold events_of in *; cbn [snd] in *.
          rewrite triggers_app, H0. exact IH.
        - rewrite (spent_silent_run rest m1 Hrest Hspent).
          unfold events_of; cbn [snd].
          rewrite triggers_app, H1.
          assert (Hreads : forall l : list input,
                     triggers (map (fun _ => ev_readi frames) l) = O)
            by (induction l; [reflexivity | assumption]).
          rewrite Hreads. lia. }
      destruct f as [[] | |]; try exact Hrun.
      unfold events_of; cbn [snd].
      destruct Hstep as [H0 | [H1 _]]; lia.
Qed.

End Trigger.

(** ** The pipe and the connection state *)

Lemma remove_only (fd : Z) : remove Z.eq_dec fd [fd] = [].
Proof. cbn. destruct (Z.eq_dec fd fd); [reflexivity | contradiction]. Qed.

Lemma filter_hook_trace (f : event -> bool) (hook : option string)
    (pid : fork_result) :
  (forall prog r, f (ev_fork prog r) = false) ->
  f (ev_stderr msg_fork_failed) = false ->
  filter f (hook_trace hook pid) = [].
Proof.
  intros Hfork Hmsg. destruct hook as [prog |], pid; cbn;
    rewrite ?Hfork, ?Hmsg; reflexivity.
Qed.

Lemma is_connected_false (m : machine) :
  is_connected m = false <-> connected m = 0.
Proof.
  unfold is_connected. destruct (Z.eqb_spec (connected m) 0); cbn;
    split; congruence.
Qed.

Lemma is_connected_true (m : machine) :
  is_connected m = true <-> connected m <> 0.
Proof.
  unfold is_connected. destruct (Z.eqb_spec (connected m) 0); cbn;
    split; congruence.
Qed.

Section Handle.

Variable g : globals.
Variables (frames : Z) (format : snd_pcm_format_t).
Variables (channels silence_max : Z).

Lemma writes_write_trace (i : input) (m : machine) :
  filter is_write (write_trace frames format channels i m)
  = [ev_write (pipefd m) (in_buffer i) (bufsize frames format channels)
              (in_write i)].
Proof.
  unfold write_trace. cbn [filter is_write].
  destruct (_ && _); reflexivity.
Qed.

Lemma writes_disconnect_on_silence (pid : fork_result) (m : machine) :
  filter is_write (events_of (disconnect_on_silence g silence_max pid m))
  = [].
Proof.
  rewrite disconnect_on_silence_eq.
  destruct (_ && _); [| reflexivity].
  cbn [events_of snd filter is_write].
  rewrite filter_app, filter_hook_trace; reflexivity.
Qed.

Lemma handle_after_disconnect (m : machine) :
  handle_matches_state m ->
  handle_matches_state (if is_connected m then disconnected m else m).
Proof.
  intros Hm. destruct (is_connected m) eqn:Hc; [| exact Hm].
  left. split; [reflexivity |].
  apply is_connected_true in Hc.
  destruct Hm as [[H0 _] | [_ Hfds]]; [contradiction |].
  cbn [disconnected open_fds]. rewrite Hfds. apply remove_only.
Qed.

Lemma handle_after_trigger (pid : fork_result) (m : machine) :
  handle_matches_state m ->
  handle_matches_state
    (machine_of (disconnect_on_silence g silence_max pid m)).
Proof.
  intros Hm. rewrite disconnect_on_silence_eq.
  destruct (is_connected m) eqn:Hc; cbn [andb]; [| exact Hm].
  destruct (silence_eq_max silence_max m); [| exact Hm].
  pose proof (handle_after_disconnect m Hm) as Hd. rewrite Hc in Hd.
  exact Hd.
Qed.

Lemma handle_after_detect (buffer : buffer_t) (m : machine) :
  handle_matches_state m ->
  handle_matches_state
    (machine_of (detect_silence frames format channels silence_max
                                buffer m)).
Proof.
  intros Hm. rewrite detect_silence_eq. cbn [machine_of fst snd].
  destruct (silent _ _ _ _); [destruct (silence_lt_max _ _) |];
    exact Hm.
Qed.

(** An iteration keeps the pipe and [connected] in step, and writes only
    to the open pipe, with the counter below the threshold. *)
Lemma run_body_handle (i : input) (m : machine) :
  handle_matches_state m ->
  let r := run_body g frames format channels silence_max i m in
  handle_matches_state (machine_of r) /\
  (filter is_write (events_of r) = [] \/
   (filter is_write (events_of r)
    = [ev_write (pipefd (machine_of r)) (in_buffer i)
                (bufsize frames format channels) (in_write i)] /\
    connected (machine_of r) = 1 /\
    open_fds (machine_of r) = [pipefd (machine_of r)] /\
    silence_lt_max silence_max (machine_of r) = true)).
Proof.
  intros Hm. cbv zeta.
  destruct (Z.eq_dec (in_size i) 0) as [Hz | Hnz].
  { rewrite run_body_zero by exact Hz. split; [exact Hm | left; reflexivity]. }
  destruct (Z.eq_dec (in_size i) frames) as [Hfull | Hshort].
  2: { rewrite run_body_error by assumption.
       cbn [machine_of events_of fst snd]. split.
       - apply handle_after_disconnect. exact Hm.
       - left. cbn [filter is_write]. rewrite filter_app.
         destruct (is_connected m); cbn [filter is_write];
           rewrite ?filter_app, ?filter_hook_trace by reflexivity;
           destruct (in_size i =? - ENODEV); reflexivity. }
  assert (Hf : frames <> 0) by congruence.
  rewrite (run_body_full_cases g frames format channels silence_max i m
             Hfull Hf).
  cbv zeta.
  pose proof (handle_after_trigger (in_fork_disconnect i) _
                (handle_after_detect (in_buffer i) m Hm)) as Hm2.
  pose proof (writes_disconnect_on_silence (in_fork_disconnect i)
                (machine_of (detect_silence frames format channels
                               silence_max (in_buffer i) m))) as Hw2.
  set (r2 := disconnect_on_silence g silence_max _ _) in *.
  set (m2 := machine_of r2) in *.
  destruct (silence_lt_max silence_max m2) eqn:Hlt.
  - destruct (is_connected m2) eqn:Hc.
    + cbn [machine_of events_of fst snd filter is_write].
      split; [exact Hm2 |]. right.
      rewrite filter_app, Hw2, writes_write_trace.
      apply is_connected_true in Hc.
      destruct Hm2 as [[H0 _] | [H1 Hfds]]; [contradiction |].
      repeat split; assumption.
    + apply is_connected_false in Hc.
      destruct Hm2 as [[_ Hfds] | [H1 _]]; [| congruence].
      destruct (in_open i <? 0).
      * cbn [machine_of events_of fst snd filter is_write]. split.
        -- left. split; assumption.
        -- left. rewrite filter_app, Hw2. reflexivity.
      * cbn [machine_of events_of fst snd filter is_write].
        assert (Hinc : int_incr (connected m2) = 1)
          by (rewrite Hc; reflexivity).
        split.
        -- right. cbn [connected_on connected open_fds pipefd].
           rewrite Hinc, Hfds. split; reflexivity.
        -- right. rewrite !filter_app, Hw2, writes_write_trace.
           unfold connect_trace. cbn [filter is_write].
           rewrite filter_hook_trace by reflexivity.
           cbn [connected_on connected open_fds pipefd app].
           rewrite Hinc, Hfds. repeat split. exact Hlt.
  - cbn [machine_of events_of fst snd filter is_write].
    split; [exact Hm2 | left; exact Hw2].
Qed.

(** Every state the loop reaches keeps the pipe and [connected] in
    step. *)
Lemma run_loop_handle (inputs : list input) (m : machine) :
  handle_matches_state m ->
  handle_matches_state
    (machine_of (run_loop g frames format channels silence_max inputs m)).
Proof.
  revert m. induction inputs as [| i rest IH]; intros m Hm; [exact Hm |].
  cbn [run_loop].
  destruct (run_body_handle i m Hm) as [Hstep _]. cbv zeta in Hstep.
  destruct (run_body g frames format channels silence_max i m)
    as [[f m1] evs1].
  cbn [machine_of fst snd] in Hstep.
  specialize (IH m1 Hstep).
  destruct (run_loop g frames format channels silence_max rest m1)
    as [[s m2] evs2].
  destruct f; exact IH || exact Hstep.
Qed.

(** C4. In every state that [run] reaches, the pipe is open exactly when
    [connected] is set, and [pipefd] is then its only open descriptor; and
    whenever the iteration that starts in such a state calls [write], it
    ends connected, and the descriptor written to is the open pipe, and
    the counter is below the threshold. The call of [write] is the last
    statement of the body, so the state in which the iteration ends is the
    state in which it writes. *)
Theorem pipe_open_iff_connected (garbage : Z) (inputs : list input) :
  let m :=
    machine_of (run g frames format channels silence_max garbage inputs) in
  (open_fds m <> [] <-> connected m <> 0) /\
  (connected m <> 0 -> open_fds m = [pipefd m]) /\
  (forall (i : input) (fd : Z) (buffer : buffer_t) (count result : Z),
      let r := run_body g frames format channels silence_max i m in
      In (ev_write fd buffer count result) (events_of r) ->
      connected (machine_of r) <> 0 /\
      open_fds (machine_of r) = [fd] /\
      to_unsigned (silence (machine_of r)) < silence_max).
Proof.
  cbv zeta. unfold run.
  assert (Hm : handle_matches_state
                 (machine_of (run_loop g frames format channels silence_max
                                       inputs (initial garbage)))).
  { apply run_loop_handle. left. split; reflexivity. }
  set (m := machine_of _) in *.
  split; [| split].
  - destruct Hm as [[H0 Hfds] | [H1 Hfds]]; rewrite Hfds; split;
      congruence || lia.
  - intros Hc. destruct Hm as [[H0 _] | [_ Hfds]]; [contradiction | exact Hfds].
  - intros i fd buffer count result Hin.
    destruct (run_body_handle i m Hm) as [_ Hw]. cbv zeta in Hw.
    assert (Hin' : In (ev_write fd buffer count result)
                      (filter is_write
                         (events_of (run_body g frames format channels
                                              silence_max i m))))
      by (apply filter_In; split; [exact Hin | reflexivity]).
    destruct Hw as [Hnone | (Hone & Hc & Hfds & Hlt)].
    + rewrite Hnone in Hin'. destruct Hin'.
    + rewrite Hone in Hin'. destruct Hin' as [Heq | []].
      injection Heq as Hfd _ _ _.
      rewrite Hc, Hfds, Hfd. repeat split; try lia.
      apply Z.ltb_lt. exact Hlt.
Qed.

End Handle.

(** ** Failures of [write] and [open] *)

Section Failures.

Variable g : globals.
Variables (frames : Z) (format : snd_pcm_format_t).
Variables (channels silence_max : Z).







End Failures.

(** ** Hooks *)

Lemma forks_app (evs1 evs2 : list event) :
  forks (evs1 ++ evs2) = forks evs1 ++ forks evs2.
Proof.
  induction evs1 as [| e evs1 IH]; [reflexivity |].
  destruct e; cbn [app forks]; rewrite IH; reflexivity.
Qed.

Lemma forks_hook_trace (hook : option string) (pid : fork_result) :
  forks (hook_trace hook pid) = hook_list hook.
Proof. destruct hook, pid; reflexivity. Qed.

Lemma forks_write_trace (frames : Z) (format : snd_pcm_format_t)
    (channels : Z) (i : input) (m : machine) :
  forks (write_trace frames format channels i m) = [].
Proof. unfold write_trace. destruct (_ && _); reflexivity. Qed.

Section Hooks.

Variable g : globals.
Variables (frames : Z) (format : snd_pcm_format_t).
Variables (channels silence_max : Z).
Hypothesis Hmax : threshold_ok silence_max.

Lemma transition_hooks_same (m m' : machine) :
  is_connected m' = is_connected m -> transition_hooks g m m' = [].
Proof.
  intros H. unfold transition_hooks. rewrite H.
  destruct (is_connected m); reflexivity.
Qed.

Lemma transition_hooks_congr (m0 m m' : machine) :
  is_connected m0 = is_connected m ->
  transition_hooks g m0 m' = transition_hooks g m m'.
Proof. intros H. unfold transition_hooks. rewrite H. reflexivity. Qed.

Lemma detect_silence_connected (buffer : buffer_t) (m : machine) :
  is_connected
    (machine_of (detect_silence frames format channels silence_max
                                buffer m))
  = is_connected m.
Proof.
  rewrite detect_silence_eq. cbn [machine_of fst snd].
  destruct (silent _ _ _ _); [destruct (silence_lt_max _ _) |];
    reflexivity.
Qed.

(** The hooks run by the silence trigger, and the counter it leaves. *)
Lemma disconnect_on_silence_hooks (pid : fork_result) (m : machine) :
  let r := disconnect_on_silence g silence_max pid m in
  forks (events_of r) = transition_hooks g m (machine_of r) /\
  (is_connected (machine_of r) = is_connected m \/
   silence_lt_max silence_max (machine_of r) = false).
Proof.
  cbv zeta. rewrite disconnect_on_silence_eq.
  destruct (is_connected m) eqn:Hc; cbn [andb].
  - destruct (silence_eq_max silence_max m) eqn:Heq.
    + cbn [machine_of events_of fst snd forks]. split.
      * rewrite forks_app, forks_hook_trace.
        unfold transition_hooks. rewrite Hc.
        cbn. rewrite !app_nil_r. reflexivity.
      * right. unfold silence_lt_max. cbn [set_silence silence].
        apply Z.eqb_eq in Heq.
        rewrite (past_threshold silence_max _ Hmax Heq).
        apply Z.ltb_ge. lia.
    + cbn [machine_of events_of fst snd forks]. split; [| left; exact Hc].
      symmetry. apply transition_hooks_same. reflexivity.
  - cbn [machine_of events_of fst snd forks]. split; [| left; exact Hc].
    symmetry. apply transition_hooks_same. reflexivity.
Qed.

(** The hooks run in one iteration are the hooks due between the state in
    which it starts and the state in which it ends. *)
Lemma run_body_hooks (i : input) (m : machine) :
  let r := run_body g frames format channels silence_max i m in
  forks (events_of r) = transition_hooks g m (machine_of r).
Proof.
  cbv zeta.
  destruct (Z.eq_dec (in_size i) 0) as [Hz | Hnz].
  { rewrite run_body_zero by exact Hz.
    cbn [machine_of events_of fst snd forks].
    symmetry. apply transition_hooks_same. reflexivity. }
  destruct (Z.eq_dec (in_size i) frames) as [Hfull | Hshort].
  2: { rewrite run_body_error by assumption.
       cbn [machine_of events_of fst snd forks].
       rewrite forks_app. unfold transition_hooks.
       destruct (is_connected m) eqn:Hc.
       - cbn [forks]. rewrite forks_app, forks_hook_trace.
         destruct (in_size i =? - ENODEV); cbn; rewrite !app_nil_r;
           reflexivity.
       - rewrite Hc. destruct (in_size i =? - ENODEV); reflexivity. }
  assert (Hf : frames <> 0) by congruence.
  rewrite (run_body_full_cases g frames format channels silence_max i m
             Hfull Hf).
  cbv zeta.
  pose proof (detect_silence_connected (in_buffer i) m) as Hc1.
  set (m1 := machine_of (detect_silence _ _ _ _ _ m)) in *.
  destruct (disconnect_on_silence_hooks (in_fork_disconnect i) m1)
    as [Hforks Hcase]. cbv zeta in Hforks, Hcase.
  rewrite (transition_hooks_congr m1 m) in Hforks by exact Hc1.
  set (r2 := disconnect_on_silence g silence_max _ m1) in *.
  set (m2 := machine_of r2) in *.
  destruct (silence_lt_max silence_max m2) eqn:Hlt.
  - destruct Hcase as [Hsame | Hpast]; [| congruence].
    rewrite (transition_hooks_same m m2) in Hforks by congruence.
    destruct (is_connected m2) eqn:Hc2.
    + cbn [machine_of events_of fst snd forks].
      rewrite forks_app, Hforks, forks_write_trace.
      symmetry. apply transition_hooks_same. congruence.
    + destruct (in_open i <? 0).
      * cbn [machine_of events_of fst snd forks].
        rewrite forks_app, Hforks.
        symmetry. apply transition_hooks_same.
        unfold is_connected in *. cbn [set_pipefd connected]. congruence.
      * cbn [machine_of events_of fst snd forks].
        rewrite !forks_app, Hforks, forks_write_trace.
        unfold connect_trace. cbn [forks]. rewrite forks_hook_trace.
        unfold transition_hooks.
        assert (Hm : is_connected m = false) by congruence.
        rewrite Hm.
        apply is_connected_false in Hc2.
        unfold is_connected at 1 2. cbn [connected_on connected].
        rewrite Hc2. cbn. rewrite !app_nil_r. reflexivity.
  - cbn [machine_of events_of fst snd forks]. exact Hforks.
Qed.

Lemma disconnect_on_silence_forks (d d' : fork_result) (m : machine) :
  machine_of (disconnect_on_silence g silence_max d m)
  = machine_of (disconnect_on_silence g silence_max d' m).
Proof.
  rewrite !disconnect_on_silence_eq. destruct (_ && _); reflexivity.
Qed.

(** C8. Along every run of the loop, the programs for which [runhook] is
    called are, in order, the hooks due at the transitions between the
    successive states of the loop: the disconnect hook at every step from
    connected to not connected, the connect hook at every step from not
    connected to connected, and nothing else. A failed [fork] is reported
    on [stderr] and changes neither the state in which an iteration ends
    nor the way it ends. *)
Theorem hooks_once_per_transition :
  (forall (inputs : list input) (m : machine),
      forks (events_of (run_loop g frames format channels silence_max
                                 inputs m))
      = hooks_due g m
          (run_states g frames format channels silence_max inputs m)) /\
  (forall (prog : string) (m : machine),
      runhook prog fork_failed m
      = (Next tt, m,
         [ev_fork prog fork_failed; ev_stderr msg_fork_failed])) /\
  (forall (i : input) (m : machine) (d c : fork_result),
      flow_of (run_body g frames format channels silence_max
                        (with_forks d c i) m)
      = flow_of (run_body g frames format channels silence_max i m) /\
      machine_of (run_body g frames format channels silence_max
                           (with_forks d c i) m)
      = machine_of (run_body g frames format channels silence_max i m)).
Proof.
  split; [| split].
  - intros inputs. induction inputs as [| i rest IH]; intros m;
      [reflexivity |].
    cbn [run_loop run_states].
    pose proof (run_body_hooks i m) as Hstep. cbv zeta in Hstep.
    destruct (run_body g frames format channels silence_max i m)
      as [[f m1] evs1].
    cbn [machine_of events_of fst snd] in Hstep.
    specialize (IH m1).
    destruct (run_loop g frames format channels silence_max rest m1)
      as [[s m2] evs2].
    cbn [events_of snd] in IH.
    destruct f; cbn [events_of snd hooks_due];
      rewrite ?forks_app, ?IH, ?Hstep, ?app_nil_r; reflexivity.
  - reflexivity.
  - intros i m d c.
    destruct (Z.eq_dec (in_size i) 0) as [Hz | Hnz].
    { rewrite !run_body_zero by exact Hz. split; reflexivity. }
    destruct (Z.eq_dec (in_size i) frames) as [Hfull | Hshort].
    2: { rewrite !run_body_error by assumption. split; reflexivity. }
    assert (Hf : frames <> 0) by congruence.
    rewrite (run_body_full_cases g frames format channels silence_max
               (with_forks d c i) m Hfull Hf).
    rewrite (run_body_full_cases g frames format channels silence_max
               i m Hfull Hf).
    cbv zeta. cbn [with_forks in_buffer in_fork_disconnect in_open].
    rewrite (disconnect_on_silence_forks d (in_fork_disconnect i)).
    destruct (silence_lt_max _ _);
      [destruct (is_connected _); [| destruct (in_open i <? 0)] |];
      split; reflexivity.
Qed.

End Hooks.

(** ** The theorems at work on the sample configuration *)

Lemma threshold_ok_3 : threshold_ok 3.
Proof. unfold threshold_ok, INT_MAX. lia. Defined.

Lemma silent_quiet_block : silent_block 2 SND_PCM_FORMAT_S8 1 quiet_block.
Proof. split; reflexivity. Defined.

Lemma disconnect_trigger_fires_once_witness :
  threshold_ok 3 /\
  disconnect_on_silence sample_globals 3 (fork_child 101) (Machine 1 3 4 [4])
  = (Next tt, Machine 0 4 4 [],
     [ev_stderr msg_silence_detected;
      ev_fork "/etc/on-disconnect" (fork_child 101);
      ev_close 4]) /\
  run_body sample_globals 2 SND_PCM_FORMAT_S8 1 3 quiet_block
           (Machine 1 2 4 [4])
  = (Next tt, Machine 0 4 4 [],
     [ev_readi 2;
      ev_stderr msg_silence_detected;
      ev_fork "/etc/on-disconnect" (fork_child 101);
      ev_close 4]) /\
  run_loop sample_globals 2 SND_PCM_FORMAT_S8 1 3 [quiet_block; quiet_block]
           (Machine 0 4 4 [])
  = (Reading, Machine 0 4 4 [], [ev_readi 2; ev_readi 2]) /\
  (triggers
     (events_of
        (run_loop sample_globals 2 SND_PCM_FORMAT_S8 1 3
                  [quiet_block; quiet_block; quiet_block; quiet_block]
                  (Machine 1 0 4 [4%Z]))) <= 1)%nat.
Proof.
  destruct (disconnect_trigger_fires_once sample_globals 2 SND_PCM_FORMAT_S8
              1 3 threshold_ok_3) as (Hfire & _ & Hreach & Hstay & Honce).
  split; [exact threshold_ok_3 |]. split; [| split; [| split]].
  - exact (Hfire (fork_child 101) (Machine 1 3 4 [4]) eq_refl eq_refl).
  - apply (Hreach quiet_block (Machine 1 2 4 [4]));
      [exact silent_quiet_block | lia | reflexivity | cbn; lia | reflexivity].
  - apply (Hstay [quiet_block; quiet_block] (Machine 0 4 4 []));
      [repeat constructor; exact silent_quiet_block | reflexivity].
  - apply (Honce [quiet_block; quiet_block; quiet_block; quiet_block]
                 (Machine 1 0 4 [4])).
    repeat constructor; exact silent_quiet_block.
Defined.

Lemma pipe_open_iff_connected_witness :
  let m :=
    machine_of (run sample_globals 2 SND_PCM_FORMAT_S8 1 3 0 [loud_block]) in
  let r := run_body sample_globals 2 SND_PCM_FORMAT_S8 1 3 loud_block m in
  In (ev_write 4 [x05; x06] 2 2) (events_of r) /\
  connected (machine_of r) <> 0 /\
  open_fds (machine_of r) = [4] /\
  to_unsigned (silence (machine_of r)) < 3.
Proof.
  cbv zeta.
  assert (Hin : In (ev_write 4 [x05; x06] 2 2)
                   (events_of
                      (run_body sample_globals 2 SND_PCM_FORMAT_S8 1 3
                         loud_block
                         (machine_of
                            (run sample_globals 2 SND_PCM_FORMAT_S8 1 3 0
                                 [loud_block])))))
    by (right; left; reflexivity).
  split; [exact Hin |].
  exact (proj2 (proj2 (pipe_open_iff_connected sample_globals 2
                         SND_PCM_FORMAT_S8 1 3 0 [loud_block]))
               loud_block 4 [x05; x06] 2 2 Hin).
Defined.


Lemma hooks_once_per_transition_witness :
  threshold_ok 3 /\
  forks
    (events_of
       (run_loop sample_globals 2 SND_PCM_FORMAT_S8 1 3
                 [loud_block; short_read; quiet_block; quiet_block;
                  quiet_block; quiet_block; loud_block; device_gone]
                 (initial 0)))
  = ["/etc/on-connect"; "/etc/on-disconnect"; "/etc/on-connect";
     "/etc/on-disconnect"; "/etc/on-connect"; "/etc/on-disconnect"]%string.
Proof.
  split; [exact threshold_ok_3 |].
  exact (proj1 (hooks_once_per_transition sample_globals 2 SND_PCM_FORMAT_S8
                  1 3 threshold_ok_3)
               [loud_block; short_read; quiet_block; quiet_block;
                quiet_block; quiet_block; loud_block; device_gone]
               (initial 0)).
Defined.

(** The scenario of a threshold of three blocks: the loop connects on the
    first block, writes it and the next two silent blocks, disconnects on
    the third silent block without writing it, ignores the fourth, and
    connects again on the block that is not silent. *)
Example threshold_of_three_blocks :
  run sample_globals 2 SND_PCM_FORMAT_S8 1 3 0
      [loud_block; quiet_block; quiet_block; quiet_block; quiet_block;
       loud_block]
  = (Reading, Machine 1 0 4 [4],
     [ev_readi 2; ev_stderr msg_source_connected;
      ev_open "/run/capture.fifo" 4;
      ev_fork "/etc/on-connect" (fork_child 102);
      ev_write 4 [x05; x06] 2 2;
      ev_readi 2; ev_write 4 [x05; x05] 2 2;
      ev_readi 2; ev_write 4 [x05; x05] 2 2;
      ev_readi 2; ev_stderr msg_silence_detected;
      ev_fork "/etc/on-disconnect" (fork_child 101); ev_close 4;
      ev_readi 2;
      ev_readi 2; ev_stderr msg_source_connected;
      ev_open "/run/capture.fifo" 4;
      ev_fork "/etc/on-connect" (fork_child 102);
      ev_write 4 [x05; x06] 2 2]).
Proof. vm_compute. reflexivity. Qed.

(** * More on the silence detector *)

(** ** Bytes and samples *)

Lemma byte_at_range (buffer : buffer_t) (k : Z) :
  0 <= byte_at buffer k <= 255.
Proof.
  unfold byte_at. destruct (k <? 0); [lia |].
  pose proof (Strings.Byte.to_N_bounded (nth (Z.to_nat k) buffer x00)). lia.
Qed.

Lemma bytes_at_range (buffer : buffer_t) (n : nat) :
  forall k, 0 <= bytes_at buffer n k < 256 ^ Z.of_nat n.
Proof.
  induction n as [| n IH]; intros k.
  - cbn. lia.
  - cbn [bytes_at]. rewrite Nat2Z.inj_succ, Z.pow_succ_r by lia.
    pose proof (byte_at_range buffer k). specialize (IH (k + 1)). lia.
Qed.

Lemma bytes_at_eq_iff (buffer : buffer_t) (n : nat) :
  forall k k',
    bytes_at buffer n k = bytes_at buffer n k' <->
    (forall j, 0 <= j < Z.of_nat n ->
               byte_at buffer (k + j) = byte_at buffer (k' + j)).
Proof.
  induction n as [| n IH]; intros k k'.
  - cbn. split; [intros _ j Hj; lia | reflexivity].
  - cbn [bytes_at]. split.
    + intros Heq.
      pose proof (byte_at_range buffer k) as Hr.
      pose proof (byte_at_range buffer k') as Hr'.
      assert (Hlow : byte_at buffer k = byte_at buffer k') by lia.
      assert (Hhigh : bytes_at buffer n (k + 1) = bytes_at buffer n (k' + 1))
        by lia.
      intros j Hj. destruct (Z.eq_dec j 0) as [-> | Hnz].
      * rewrite !Z.add_0_r. exact Hlow.
      * replace (k + j) with (k + 1 + (j - 1)) by lia.
        replace (k' + j) with (k' + 1 + (j - 1)) by lia.
        apply (proj1 (IH (k + 1) (k' + 1)) Hhigh). lia.
    + intros H.
      assert (Hlow : byte_at buffer k = byte_at buffer k').
      { specialize (H 0). rewrite !Z.add_0_r in H. apply H. lia. }
      assert (Hhigh : bytes_at buffer n (k + 1) = bytes_at buffer n (k' + 1)).
      { apply IH. intros j Hj.
        replace (k + 1 + j) with (k + (j + 1)) by lia.
        replace (k' + 1 + j) with (k' + (j + 1)) by lia.
        apply H. lia. }
      rewrite Hlow, Hhigh. reflexivity.
Qed.

Lemma to_signed_inj (w z z' : Z) :
  0 < w -> 0 <= z < 2 ^ w -> 0 <= z' < 2 ^ w ->
  to_signed w z = to_signed w z' -> z = z'.
Proof.
  intros Hw Hz Hz'. unfold to_signed.
  assert (HM : 2 ^ w = 2 * 2 ^ (w - 1)).
  { rewrite <- Z.pow_succ_r by lia. f_equal. lia. }
  set (h := 2 ^ (w - 1)) in *. set (M := 2 ^ w) in *.
  assert (Hcase : forall x, 0 <= x < M ->
            (x + h) mod M = x + h \/ (x + h) mod M = x + h - M).
  { intros x Hx. destruct (Z_lt_le_dec (x + h) M).
    - left. apply Z.mod_small. lia.
    - right. symmetry. apply (Z.mod_unique_pos _ _ 1); lia. }
  intros Heq.
  assert (E : (z + h) mod M = (z' + h) mod M) by lia.
  destruct (Hcase z Hz) as [A | A], (Hcase z' Hz') as [B | B];
    rewrite A, B in E; lia.
Qed.

(** Two elements of [n] bytes are equal as signed integers exactly when
    their bytes are. *)
Lemma load_eq_iff (w : Z) (n : nat) (buffer : buffer_t) (k k' : Z) :
  w = 8 * Z.of_nat n -> 0 < w ->
  (to_signed w (bytes_at buffer n k) = to_signed w (bytes_at buffer n k') <->
   forall j, 0 <= j < Z.of_nat n ->
             byte_at buffer (k + j) = byte_at buffer (k' + j)).
Proof.
  intros Hw Hpos. rewrite <- bytes_at_eq_iff.
  assert (Hpow : 256 ^ Z.of_nat n = 2 ^ w).
  { rewrite Hw, Z.pow_mul_r by lia. reflexivity. }
  split; [| intros ->; reflexivity].
  apply to_signed_inj; [exact Hpos | rewrite <- Hpow .. ];
    apply bytes_at_range.
Qed.

(** X4. The comparison [data[i] != data[j]] of [silent] is a comparison of
    bytes: for the widths 8, 16 and 32, sample [i] equals sample [j] exactly
    when every byte of the one equals the byte of the other at the same
    place. Whether the format is signed or unsigned, and its byte order, do
    not matter. *)
Theorem sample_eq_iff_bytes (buffer : buffer_t) (format : snd_pcm_format_t)
    (i j : Z) :
  snd_pcm_format_width format <> 24 ->
  let size := Z.shiftr (snd_pcm_format_width format) 3 in
  (sample buffer format i = sample buffer format j <->
   forall k, 0 <= k < size ->
             byte_at buffer (size * i + k) = byte_at buffer (size * j + k)).
Proof.
  intros Hw. cbv zeta. unfold sample.
  destruct format; cbn [snd_pcm_format_width] in *; try congruence;
    unfold load_int8, load_int16, load_int32.
  1, 2: change (Z.shiftr 8 3) with 1; rewrite !Z.mul_1_l;
        apply (load_eq_iff 8 1); lia.
  1, 2: change (Z.shiftr 16 3) with 2; apply (load_eq_iff 16 2); lia.
  1, 2: change (Z.shiftr 32 3) with 4; apply (load_eq_iff 32 4); lia.
Qed.

Lemma sample_eq_iff_bytes_witness :
  snd_pcm_format_width SND_PCM_FORMAT_S16_LE <> 24 /\
  (sample [x01; x02; x03; x04; x01; x02] SND_PCM_FORMAT_S16_LE 0
   = sample [x01; x02; x03; x04; x01; x02] SND_PCM_FORMAT_S16_LE 2 <->
   forall k, 0 <= k < 2 ->
     byte_at [x01; x02; x03; x04; x01; x02] (2 * 0 + k)
     = byte_at [x01; x02; x03; x04; x01; x02] (2 * 2 + k)).
Proof.
  assert (Hw : snd_pcm_format_width SND_PCM_FORMAT_S16_LE <> 24)
    by (cbn; discriminate).
  split; [exact Hw |].
  exact (sample_eq_iff_bytes [x01; x02; x03; x04; x01; x02]
           SND_PCM_FORMAT_S16_LE 0 2 Hw).
Defined.

(** ** What the detector reads *)

Lemma silent_loop_ext (load1 load2 : Z -> Z) (channels : Z) (left : nat) :
  forall i,
    (forall j, i <= j < i + Z.of_nat left ->
       load1 j = load2 j /\
       load1 (Z.rem j channels) = load2 (Z.rem j channels)) ->
    silent_loop load1 channels left i = silent_loop load2 channels left i.
Proof.
  induction left as [| left IH]; intros i H; [reflexivity |].
  cbn [silent_loop].
  destruct (H i ltac:(lia)) as [H1 H2]. rewrite H1, H2.
  rewrite (IH (i + 1)); [reflexivity |].
  intros j Hj. apply H. lia.
Qed.

Lemma bytes_at_ext (b1 b2 : buffer_t) (n : nat) :
  forall k,
    (forall o, 0 <= o < Z.of_nat n -> byte_at b1 (k + o) = byte_at b2 (k + o)) ->
    bytes_at b1 n k = bytes_at b2 n k.
Proof.
  induction n as [| n IH]; intros k H; [reflexivity |].
  cbn [bytes_at].
  assert (H0 : byte_at b1 k = byte_at b2 k).
  { specialize (H 0). rewrite !Z.add_0_r in H. apply H. lia. }
  rewrite H0, (IH (k + 1)); [reflexivity |].
  intros o Ho. replace (k + 1 + o) with (k + (o + 1)) by lia.
  apply H. lia.
Qed.

(** X3. [silent] reads nothing beyond the first [frames] samples of the
    buffer: two buffers that agree on their first [frames * (width >> 3)]
    bytes get the same answer, whatever follows. With at least one channel
    this is within the [frames * channels * (width >> 3)] bytes of the
    block. *)
Theorem silent_reads_prefix (b1 b2 : buffer_t) (frames : Z)
    (format : snd_pcm_format_t) (channels : Z) :
  0 <= channels ->
  (forall k, 0 <= k < frames * Z.shiftr (snd_pcm_format_width format) 3 ->
             byte_at b1 k = byte_at b2 k) ->
  silent b1 frames format channels = silent b2 frames format channels.
Proof.
  intros Hc Hsame. unfold silent.
  destruct (Z.eqb_spec channels 0) as [| Hnz]; [reflexivity |].
  destruct (Z.leb_spec frames channels) as [| Hlt]; [reflexivity |].
  cbn [orb].
  assert (Hidx : forall j,
            channels <= j < channels + Z.of_nat (Z.to_nat (frames - channels))
            -> 0 <= j < frames /\ 0 <= Z.rem j channels < frames).
  { intros j Hj. split; [lia |].
    pose proof (Z.rem_bound_pos j channels ltac:(lia) ltac:(lia)). lia. }
  destruct format; cbn [snd_pcm_format_width] in *; try reflexivity;
    apply silent_loop_ext; intros j Hj; destruct (Hidx j Hj) as [H1 H2];
    unfold load_int8, load_int16, load_int32;
    split; f_equal; apply bytes_at_ext; intros o Ho; apply Hsame;
    change (Z.shiftr 8 3) with 1; change (Z.shiftr 16 3) with 2;
    change (Z.shiftr 32 3) with 4; lia.
Qed.

Lemma silent_reads_prefix_witness :
  0 <= 2 /\
  (forall k, 0 <= k < 3 * Z.shiftr (snd_pcm_format_width SND_PCM_FORMAT_S8) 3
     -> byte_at [x00; x00; x00; x00; x00; x00] k
        = byte_at [x00; x00; x00; x07; x08; x09] k) /\
  silent [x00; x00; x00; x00; x00; x00] 3 SND_PCM_FORMAT_S8 2
  = silent [x00; x00; x00; x07; x08; x09] 3 SND_PCM_FORMAT_S8 2.
Proof.
  assert (Hc : 0 <= 2) by lia.
  assert (Hsame :
    forall k, 0 <= k < 3 * Z.shiftr (snd_pcm_format_width SND_PCM_FORMAT_S8) 3
      -> byte_at [x00; x00; x00; x00; x00; x00] k
         = byte_at [x00; x00; x00; x07; x08; x09] k).
  { intros k Hk. cbn in Hk.
    assert (Hcases : k = 0 \/ k = 1 \/ k = 2) by lia.
    destruct Hcases as [-> | [-> | ->]]; reflexivity. }
  split; [exact Hc |]. split; [exact Hsame |].
  exact (silent_reads_prefix [x00; x00; x00; x00; x00; x00]
           [x00; x00; x00; x07; x08; x09] 3 SND_PCM_FORMAT_S8 2 Hc Hsame).
Defined.

(** X1. For at least one channel, more frames than channels and a format
    of width 8, 16 or 32, [silent] answers 1 exactly when every sample with
    index from [channels] up to [frames - 1] equals the sample at index
    [i % channels]; no other sample is compared. *)
Theorem silent_compares_first_frame (buffer : buffer_t) (frames : Z)
    (format : snd_pcm_format_t) (channels : Z) :
  1 <= channels -> channels < frames ->
  snd_pcm_format_width format <> 24 ->
  (silent buffer frames format channels = true <->
   forall i, channels <= i < frames ->
     sample buffer format i = sample buffer format (Z.rem i channels)).
Proof.
  intros Hc Hf Hw. apply silent_true_iff; assumption.
Qed.

Lemma silent_compares_first_frame_witness :
  1 <= 1 /\ 1 < 3 /\ snd_pcm_format_width SND_PCM_FORMAT_U8 <> 24 /\
  (silent [x80; x80; x80] 3 SND_PCM_FORMAT_U8 1 = true <->
   forall i, 1 <= i < 3 ->
     sample [x80; x80; x80] SND_PCM_FORMAT_U8 i
     = sample [x80; x80; x80] SND_PCM_FORMAT_U8 (Z.rem i 1)).
Proof.
  assert (Hc : 1 <= 1) by lia.
  assert (Hf : 1 < 3) by lia.
  assert (Hw : snd_pcm_format_width SND_PCM_FORMAT_U8 <> 24)
    by (cbn; discriminate).
  split; [exact Hc |]. split; [exact Hf |]. split; [exact Hw |].
  exact (silent_compares_first_frame [x80; x80; x80] 3 SND_PCM_FORMAT_U8 1 Hc Hf Hw).
Defined.

(** X2. With one channel the detector does what its name says: a block of
    more than one frame is silent exactly when every sample of the block
    equals the first. *)
Theorem silent_mono_iff (buffer : buffer_t) (frames : Z)
    (format : snd_pcm_format_t) :
  1 < frames -> snd_pcm_format_width format <> 24 ->
  (silent buffer frames format 1 = true <->
   forall i, 0 <= i < frames * 1 ->
     sample buffer format i = sample buffer format 0).
Proof.
  intros Hf Hw.
  rewrite (silent_true_iff buffer frames format 1) by (trivial; lia).
  split; intros H i Hi.
  - destruct (Z.eq_dec i 0) as [-> | Hnz]; [reflexivity |].
    rewrite <- (Z.rem_1_r i). apply H. lia.
  - rewrite Z.rem_1_r. apply H. lia.
Qed.

Lemma silent_mono_iff_witness :
  1 < 3 /\ snd_pcm_format_width SND_PCM_FORMAT_U8 <> 24 /\
  (silent [x80; x80; x81] 3 SND_PCM_FORMAT_U8 1 = true <->
   forall i, 0 <= i < 3 * 1 ->
     sample [x80; x80; x81] SND_PCM_FORMAT_U8 i
     = sample [x80; x80; x81] SND_PCM_FORMAT_U8 0).
Proof.
  assert (Hf : 1 < 3) by lia.
  assert (Hw : snd_pcm_format_width SND_PCM_FORMAT_U8 <> 24)
    by (cbn; discriminate).
  split; [exact Hf |]. split; [exact Hw |].
  exact (silent_mono_iff [x80; x80; x81] 3 SND_PCM_FORMAT_U8 Hf Hw).
Defined.

Lemma byte_at_zeros (n : nat) (k : Z) : byte_at (repeat x00 n) k = 0.
Proof.
  unfold byte_at. destruct (k <? 0); [reflexivity |].
  rewrite nth_repeat. reflexivity.
Qed.

Lemma bytes_at_zeros (n len : nat) :
  forall k, bytes_at (repeat x00 len) n k = 0.
Proof.
  induction n as [| n IH]; intros k; [reflexivity |].
  cbn [bytes_at]. rewrite byte_at_zeros, IH. reflexivity.
Qed.

(** X5. Digital silence is silent: a buffer of zero bytes, of whatever
    length, is classified as silent for every format of width 8, 16 or 32
    as soon as there are more frames than channels. *)
Theorem silent_zero_block (len : nat) (frames : Z)
    (format : snd_pcm_format_t) (channels : Z) :
  1 <= channels -> channels < frames ->
  snd_pcm_format_width format <> 24 ->
  silent (repeat x00 len) frames format channels = true.
Proof.
  intros Hc Hf Hw. apply silent_true_iff; trivial.
  intros i _. unfold sample, load_int8, load_int16, load_int32.
  rewrite !bytes_at_zeros. reflexivity.
Qed.

Lemma silent_zero_block_witness :
  1 <= 2 /\ 2 < 128 /\ snd_pcm_format_width SND_PCM_FORMAT_S16_LE <> 24 /\
  silent (repeat x00 512) 128 SND_PCM_FORMAT_S16_LE 2 = true.
Proof.
  assert (Hc : 1 <= 2) by lia.
  assert (Hf : 2 < 128) by lia.
  assert (Hw : snd_pcm_format_width SND_PCM_FORMAT_S16_LE <> 24)
    by (cbn; discriminate).
  split; [exact Hc |]. split; [exact Hf |]. split; [exact Hw |].
  exact (silent_zero_block 512 128 SND_PCM_FORMAT_S16_LE 2 Hc Hf Hw).
Defined.

(** * More on the streaming loop *)

(** ** The uninitialised descriptor *)

Section Garbage.

Variable g : globals.
Variables (frames : Z) (format : snd_pcm_format_t).
Variables (channels silence_max : Z).

Lemma same_but_pipefd_refl (m : machine) : same_but_pipefd m m.
Proof. repeat split. Qed.

(** A full read in a state without a connection. *)
Lemma run_body_unconnected_full (i : input) (s p : Z) (fds : list Z) :
  in_size i = frames -> frames <> 0 ->
  let s' :=
    if silent (in_buffer i) frames format channels
    then if to_unsigned s <? silence_max then int_incr s else s
    else 0 in
  run_body g frames format channels silence_max i (Machine 0 s p fds) =
  if to_unsigned s' <? silence_max then
    if in_open i <? 0 then
      (Return, Machine 0 s' (in_open i) fds,
       [ev_readi frames; ev_stderr msg_source_connected;
        ev_open (pipename g) (in_open i); ev_stderr msg_pipe_open])
    else
      (write_flow i, Machine 1 s' (in_open i) (in_open i :: fds),
       ev_readi frames
       :: connect_trace g i
       ++ write_trace frames format channels i
            (Machine 1 s' (in_open i) (in_open i :: fds)))
  else (Next tt, Machine 0 s' p fds, [ev_readi frames]).
Proof.
  intros Hfull Hf. cbv zeta.
  rewrite (run_body_full_cases g frames format channels silence_max i _
             Hfull Hf).
  cbv zeta.
  set (s' := if silent (in_buffer i) frames format channels
             then if to_unsigned s <? silence_max then int_incr s else s
             else 0).
  assert (H1 : machine_of (detect_silence frames format channels silence_max
                             (in_buffer i) (Machine 0 s p fds))
               = Machine 0 s' p fds).
  { rewrite detect_silence_eq. unfold s', silence_lt_max.
    cbn [machine_of fst snd silence].
    destruct (silent _ _ _ _);
      [destruct (to_unsigned s <? silence_max) |]; reflexivity. }
  rewrite H1. rewrite disconnect_on_silence_eq.
  cbn [is_connected connected Z.eqb negb andb machine_of events_of fst snd].
  change (silence_lt_max silence_max (Machine 0 s' p fds))
    with (to_unsigned s' <? silence_max).
  destruct (to_unsigned s' <? silence_max); [| reflexivity].
  destruct (in_open i <? 0); reflexivity.
Qed.

(** An iteration that starts without a connection does not look at
    [pipefd]. *)
Lemma run_body_unconnected (i : input) (s p1 p2 : Z) (fds : list Z) :
  let r1 := run_body g frames format channels silence_max i
              (Machine 0 s p1 fds) in
  let r2 := run_body g frames format channels silence_max i
              (Machine 0 s p2 fds) in
  flow_of r1 = flow_of r2 /\ events_of r1 = events_of r2 /\
  same_but_pipefd (machine_of r1) (machine_of r2).
Proof.
  cbv zeta.
  assert (Hsame : forall s', same_but_pipefd (Machine 0 s' p1 fds)
                                             (Machine 0 s' p2 fds)).
  { intros s'. split; [reflexivity |]. split; [reflexivity |].
    split; [reflexivity |]. cbn. intros H. contradiction. }
  destruct (Z.eq_dec (in_size i) 0) as [Hz | Hnz].
  { rewrite !run_body_zero by exact Hz.
    split; [reflexivity |]. split; [reflexivity | apply Hsame]. }
  destruct (Z.eq_dec (in_size i) frames) as [Hfull | Hshort].
  2: { rewrite !run_body_error by assumption.
       split; [reflexivity |]. split; [reflexivity | apply Hsame]. }
  assert (Hf : frames <> 0) by congruence.
  rewrite !(run_body_unconnected_full i s _ fds Hfull Hf).
  cbv zeta.
  destruct (to_unsigned _ <? silence_max);
    [destruct (in_open i <? 0) |];
    (split; [reflexivity |]; split; [reflexivity |]);
    apply same_but_pipefd_refl || apply Hsame.
Qed.

Lemma run_body_same_but_pipefd (i : input) (m1 m2 : machine) :
  same_but_pipefd m1 m2 ->
  let r1 := run_body g frames format channels silence_max i m1 in
  let r2 := run_body g frames format channels silence_max i m2 in
  flow_of r1 = flow_of r2 /\ events_of r1 = events_of r2 /\
  same_but_pipefd (machine_of r1) (machine_of r2).
Proof.
  destruct m1 as [c1 s1 p1 fds1], m2 as [c2 s2 p2 fds2].
  unfold same_but_pipefd at 1. cbn [connected silence pipefd open_fds].
  intros (<- & <- & <- & Hp).
  destruct (Z.eq_dec c1 0) as [-> | Hc].
  - apply run_body_unconnected.
  - rewrite (Hp Hc). cbv zeta. split; [reflexivity |].
    split; [reflexivity | apply same_but_pipefd_refl].
Qed.

(** X6. [pipefd] is not initialised when the loop starts, and the loop never
    uses it before [open] has stored a descriptor in it: whatever value it
    starts with, the loop makes the same calls with the same arguments, ends
    the same way, and reaches the same [connected], [silence] and open
    descriptors, and the same [pipefd] whenever it is connected. *)
Theorem run_ignores_uninitialised_pipefd (garbage1 garbage2 : Z)
    (inputs : list input) :
  let r1 := run g frames format channels silence_max garbage1 inputs in
  let r2 := run g frames format channels silence_max garbage2 inputs in
  fst (fst r1) = fst (fst r2) /\ events_of r1 = events_of r2 /\
  same_but_pipefd (machine_of r1) (machine_of r2).
Proof.
  cbv zeta. unfold run.
  assert (Hinit : same_but_pipefd (initial garbage1) (initial garbage2)).
  { repeat split. intros []. reflexivity. }
  generalize dependent (initial garbage2).
  generalize (initial garbage1).
  induction inputs as [| i rest IH]; intros m1 m2 Hm.
  - repeat split; apply Hm.
  - cbn [run_loop].
    destruct (run_body_same_but_pipefd i m1 m2 Hm) as (Hf & He & Hm').
    cbv zeta in Hf, He, Hm'.
    destruct (run_body g frames format channels silence_max i m1)
      as [[f1 n1] evs1].
    destruct (run_body g frames format channels silence_max i m2)
      as [[f2 n2] evs2].
    cbn [flow_of machine_of events_of fst snd] in Hf, He, Hm'.
    subst f2 evs2.
    specialize (IH n1 n2 Hm').
    destruct (run_loop g frames format channels silence_max rest n1)
      as [[s1 k1] l1].
    destruct (run_loop g frames format channels silence_max rest n2)
      as [[s2 k2] l2].
    cbn [machine_of events_of fst snd] in IH.
    destruct IH as (Hs & Hl & Hk). subst s2 l2.
    destruct f1; cbn [machine_of events_of fst snd]; repeat split;
      apply Hk || apply Hm'.
Qed.

End Garbage.

(** ** The range of the counter *)

Section CounterRange.

Variable g : globals.
Variables (frames : Z) (format : snd_pcm_format_t).
Variables (channels silence_max : Z).
Hypothesis Hmax : threshold_ok silence_max.

Lemma run_body_counter_in_range (i : input) (m : machine) :
  counter_in_range silence_max m ->
  counter_in_range silence_max
    (machine_of (run_body g frames format channels silence_max i m)).
Proof.
  intros [Hr Hc].
  assert (Hint : is_int (silence m)).
  { unfold is_int, threshold_ok, INT_MAX in *. lia. }
  destruct (Z.eq_dec (in_size i) 0) as [Hz | Hnz].
  { rewrite run_body_zero by exact Hz. split; assumption. }
  destruct (Z.eq_dec (in_size i) frames) as [Hfull | Hshort].
  2: { rewrite run_body_error by assumption. cbn [machine_of fst snd].
       destruct (is_connected m); [| split; assumption].
       split; [exact Hr |]. cbn. intros H. contradiction. }
  assert (Hf : frames <> 0) by congruence.
  rewrite (run_body_full_cases g frames format channels silence_max i m
             Hfull Hf).
  cbv zeta.
  destruct (detect_silence_counter frames format channels silence_max Hmax
              (in_buffer i) m Hint) as (Hs1 & Hint1 & Hc1 & _).
  set (m1 := machine_of (detect_silence _ _ _ _ _ m)) in *.
  assert (Hr1 : 0 <= silence m1 <= silence_max + 1 /\
                (connected m1 <> 0 -> silence m1 <= silence_max)).
  { pose proof (silence_lt_max_int silence_max Hmax m Hint) as Hlt.
    rewrite Hs1, Hc1.
    destruct (silent _ _ _ _);
      [| unfold threshold_ok in Hmax; split; intros; lia].
    destruct (silence_lt_max silence_max m).
    - assert (0 <= silence m < silence_max) by (apply Hlt; reflexivity).
      split; intros; lia.
    - split; [lia |]. intros H. specialize (Hc H). lia. }
  destruct Hr1 as [Hr1 Hc1'].
  assert (Hm2 : counter_in_range silence_max
                  (machine_of (disconnect_on_silence g silence_max
                                 (in_fork_disconnect i) m1))).
  { rewrite disconnect_on_silence_eq.
    destruct (is_connected m1) eqn:Hcon; cbn [andb].
    - apply is_connected_true in Hcon.
      destruct (silence_eq_max silence_max m1) eqn:Heq.
      + apply (silence_eq_max_int silence_max Hmax m1 Hint1) in Heq.
        cbn [machine_of fst snd set_silence disconnected silence connected].
        unfold threshold_ok in Hmax.
        rewrite Heq, int_incr_small by (unfold INT_MAX in *; lia).
        unfold counter_in_range.
        cbn [set_silence disconnected silence connected].
        split; [lia |]. intros H. contradiction.
      + cbn [machine_of fst snd]. split; [exact Hr1 |]. intros H.
        specialize (Hc1' H).
        assert (silence m1 <> silence_max); [| lia].
        intros E. apply (silence_eq_max_int silence_max Hmax m1 Hint1) in E.
        congruence.
    - cbn [machine_of fst snd]. split; [exact Hr1 |].
      apply is_connected_false in Hcon. intros H. contradiction. }
  set (m2 := machine_of (disconnect_on_silence g silence_max _ m1)) in *.
  destruct Hm2 as [Hr2 Hc2].
  assert (Hint2 : is_int (silence m2)).
  { unfold is_int, threshold_ok, INT_MAX in *. lia. }
  pose proof (silence_lt_max_int silence_max Hmax m2 Hint2) as Hlt2.
  destruct (silence_lt_max silence_max m2).
  - assert (Hs2 : 0 <= silence m2 < silence_max) by (apply Hlt2; reflexivity).
    destruct (is_connected m2); [| destruct (in_open i <? 0)];
      unfold counter_in_range;
      cbn [machine_of fst snd set_pipefd connected_on silence];
      split; intros; lia.
  - cbn [machine_of fst snd]. split; assumption.
Qed.

(** X7. With a threshold in range, in every state [run] reaches the counter
    is between 0 and one past the threshold, so it never overflows, and it
    is below the threshold whenever the loop is connected. *)
Theorem counter_stays_in_range (garbage : Z) (inputs : list input) :
  counter_in_range silence_max
    (machine_of (run g frames format channels silence_max garbage inputs)).
Proof.
  unfold run.
  assert (Hinit : counter_in_range silence_max (initial garbage)).
  { unfold counter_in_range, threshold_ok in *. cbn. split; [lia |].
    intros H. contradiction. }
  generalize dependent (initial garbage).
  induction inputs as [| i rest IH]; intros m Hm; [exact Hm |].
  cbn [run_loop].
  pose proof (run_body_counter_in_range i m Hm) as Hstep.
  destruct (run_body g frames format channels silence_max i m)
    as [[f m1] evs1].
  cbn [machine_of fst snd] in Hstep.
  specialize (IH m1 Hstep).
  destruct (run_loop g frames format channels silence_max rest m1)
    as [[s m2] evs2].
  destruct f; exact IH || exact Hstep.
Qed.

(** X10. While the loop is connected and the counter stays below the
    threshold after the increment, a silent block is counted and written
    like any other: nothing is closed and no hook runs. *)
Theorem quiet_block_below_threshold_is_written (i : input) (m : machine) :
  silent_block frames format channels i -> frames <> 0 ->
  is_connected m = true -> 0 <= silence m -> silence m + 1 < silence_max ->
  run_body g frames format channels silence_max i m =
  (write_flow i, set_silence (silence m + 1) m,
   ev_readi frames
   :: write_trace frames format channels i (set_silence (silence m + 1) m)).
Proof.
  intros [Hsize Hsilent] Hf Hc Hs0 Hs.
  rewrite (run_body_full_cases g frames format channels silence_max i m
             Hsize Hf).
  cbv zeta.
  assert (Hint : is_int (silence m)).
  { unfold is_int, threshold_ok, INT_MAX in *. lia. }
  assert (Hlt : silence_lt_max silence_max m = true)
    by (apply silence_lt_max_int; trivial; lia).
  assert (H1 : machine_of (detect_silence frames format channels
                             silence_max (in_buffer i) m)
               = set_silence (silence m + 1) m).
  { rewrite detect_silence_eq, Hsilent, Hlt. cbn [machine_of fst snd].
    rewrite int_incr_small
      by (unfold threshold_ok, INT_MAX in *; lia).
    reflexivity. }
  rewrite H1.
  set (m1 := set_silence (silence m + 1) m).
  assert (Hint1 : is_int (silence m1)).
  { unfold is_int, threshold_ok, INT_MAX in *. cbn. lia. }
  assert (Heq1 : silence_eq_max silence_max m1 = false).
  { destruct (silence_eq_max silence_max m1) eqn:E; [| reflexivity].
    apply (silence_eq_max_int silence_max Hmax m1 Hint1) in E.
    cbn in E. lia. }
  assert (Hlt1 : silence_lt_max silence_max m1 = true).
  { apply (silence_lt_max_int silence_max Hmax m1 Hint1). cbn. lia. }
  rewrite disconnect_on_silence_eq, Heq1, andb_false_r.
  cbn [machine_of events_of fst snd app].
  rewrite Hlt1.
  change (is_connected m1) with (is_connected m). rewrite Hc. reflexivity.
Qed.

End CounterRange.

Lemma counter_stays_in_range_witness :
  threshold_ok 3 /\
  counter_in_range 3
    (machine_of (run sample_globals 2 SND_PCM_FORMAT_S8 1 3 0
                     [loud_block; quiet_block; quiet_block; quiet_block;
                      quiet_block])).
Proof.
  split; [exact threshold_ok_3 |].
  exact (counter_stays_in_range sample_globals 2 SND_PCM_FORMAT_S8 1 3
           threshold_ok_3 0
           [loud_block; quiet_block; quiet_block; quiet_block; quiet_block]).
Defined.

Lemma quiet_block_below_threshold_is_written_witness :
  threshold_ok 3 /\ silent_block 2 SND_PCM_FORMAT_S8 1 quiet_block /\
  run_body sample_globals 2 SND_PCM_FORMAT_S8 1 3 quiet_block
           (Machine 1 0 4 [4])
  = (Next tt, Machine 1 1 4 [4],
     [ev_readi 2; ev_write 4 [x05; x05] 2 2]).
Proof.
  split; [exact threshold_ok_3 |]. split; [exact silent_quiet_block |].
  apply (quiet_block_below_threshold_is_written sample_globals 2
           SND_PCM_FORMAT_S8 1 3 threshold_ok_3 quiet_block
           (Machine 1 0 4 [4]));
    [exact silent_quiet_block | lia | reflexivity | cbn; lia | cbn; lia].
Defined.

(** ** The counter over one iteration *)

Section CounterUpdate.

Variable g : globals.
Variables (frames : Z) (format : snd_pcm_format_t).
Variables (channels silence_max : Z).
Hypothesis Hmax : threshold_ok silence_max.

(** The counter at the end of an iteration with a full read: the update
    that follows the silence test, then the increment of the silence
    trigger where it fires. *)
Lemma full_read_counter_value (i : input) (m : machine) :
  is_int (silence m) -> in_size i = frames -> frames <> 0 ->
  let updated :=
    if silent (in_buffer i) frames format channels
    then if silence_lt_max silence_max m then silence m + 1 else silence m
    else 0 in
  silence (machine_of (run_body g frames format channels silence_max i m))
  = if is_connected m && (updated =? silence_max)
    then silence_max + 1 else updated.
Proof.
  intros Hint Hsize Hf. cbv zeta.
  rewrite (full_read_counter g frames format channels silence_max i m
             Hsize Hf).
  destruct (detect_silence_counter frames format channels silence_max Hmax
              (in_buffer i) m Hint) as (Hs1 & Hint1 & Hc1 & _).
  destruct (disconnect_on_silence_counter g silence_max Hmax
              (in_fork_disconnect i) _ Hint1) as (Hs2 & _).
  rewrite Hs2, Hs1.
  unfold is_connected. rewrite Hc1. reflexivity.
Qed.

(** The range of the counter in the states [run] reaches. *)
Lemma reached_counter_in_range (garbage : Z) (inputs : list input) :
  counter_in_range silence_max
    (machine_of (run g frames format channels silence_max garbage inputs)).
Proof.
  unfold run.
  assert (Hinit : counter_in_range silence_max (initial garbage)).
  { unfold counter_in_range, threshold_ok in *. cbn. split; [lia |].
    intros H. contradiction. }
  generalize dependent (initial garbage).
  induction inputs as [| i rest IH]; intros m Hm; [exact Hm |].
  cbn [run_loop].
  pose proof (run_body_counter_in_range g frames format channels silence_max
                Hmax i m Hm) as Hstep.
  destruct (run_body g frames format channels silence_max i m)
    as [[f m1] evs1].
  cbn [machine_of fst snd] in Hstep.
  specialize (IH m1 Hstep).
  destruct (run_loop g frames format channels silence_max rest m1)
    as [[s m2] evs2].
  destruct f; exact IH || exact Hstep.
Qed.

(** C5. The update that follows the silence test of a full read increments
    the counter only if it is below the threshold, so that it does not pass
    the threshold, leaves it unchanged otherwise, and resets it to 0 when
    the block is not silent. An iteration of the loop whose read is full
    ends with the counter at that updated value, or at one past the
    threshold where the silence trigger fires on it. In every state [run]
    reaches, an iteration with a full read of a block that is not silent
    ends with the counter at 0, and one with a full read of a silent block
    ends with it incremented if it was below the threshold (and incremented
    once more by the silence trigger if that fires), unchanged otherwise.
    Over any sequence of consecutive silent full-size blocks the counter
    never decreases. *)
Theorem silence_counter_update :
  (forall (buffer : buffer_t) (m : machine),
      is_int (silence m) ->
      let m1 := machine_of (detect_silence frames format channels
                              silence_max buffer m) in
      (silence_lt_max silence_max m = true
       <-> 0 <= silence m < silence_max) /\
      silence m1 =
        (if silent buffer frames format channels
         then if silence_lt_max silence_max m
              then silence m + 1 else silence m
         else 0) /\
      (silence m <= silence_max -> silence m1 <= silence_max)) /\
  (forall (i : input) (m : machine),
      is_int (silence m) -> in_size i = frames -> frames <> 0 ->
      let updated :=
        if silent (in_buffer i) frames format channels
        then if silence_lt_max silence_max m
             then silence m + 1 else silence m
        else 0 in
      silence (machine_of (run_body g frames format channels silence_max
                                    i m))
      = if is_connected m && (updated =? silence_max)
        then silence_max + 1 else updated) /\
  (forall (garbage : Z) (inputs : list input) (i : input),
      in_size i = frames -> frames <> 0 ->
      let m := machine_of (run g frames format channels silence_max
                               garbage inputs) in
      let m' := machine_of (run_body g frames format channels silence_max
                                     i m) in
      (silent (in_buffer i) frames format channels = false ->
       silence m' = 0) /\
      (silent (in_buffer i) frames format channels = true ->
       silence m' =
         if silence m <? silence_max
         then if is_connected m && (silence m + 1 =? silence_max)
              then silence_max + 1 else silence m + 1
         else silence m)) /\
  (forall (inputs : list input) (m : machine),
      is_int (silence m) ->
      Forall (silent_block frames format channels) inputs ->
      silence m
      <= silence (machine_of (run_loop g frames format channels
                                       silence_max inputs m))).
Proof.
  split; [| split; [| split]].
  - intros buffer m Hint. cbv zeta.
    pose proof (silence_lt_max_int silence_max Hmax m Hint) as Hlt.
    destruct (detect_silence_counter frames format channels silence_max
                Hmax buffer m Hint) as (Hs1 & _).
    split; [exact Hlt |]. split; [exact Hs1 |].
    intros Hle. rewrite Hs1.
    destruct (silent buffer frames format channels);
      [| unfold threshold_ok in Hmax; lia].
    destruct (silence_lt_max silence_max m); [| exact Hle].
    assert (0 <= silence m < silence_max) by (apply Hlt; reflexivity). lia.
  - intros i m Hint Hsize Hf. exact (full_read_counter_value i m Hint Hsize Hf).
  - intros garbage inputs i Hsize Hf. cbv zeta.
    destruct (reached_counter_in_range garbage inputs) as [Hr Hc].
    set (m := machine_of (run g frames format channels silence_max garbage
                              inputs)) in *.
    assert (Hint : is_int (silence m)).
    { unfold is_int, threshold_ok, INT_MAX in *. lia. }
    pose proof (full_read_counter_value i m Hint Hsize Hf) as Hv.
    cbv zeta in Hv. rewrite Hv.
    pose proof (silence_lt_max_int silence_max Hmax m Hint) as Hlt.
    pose proof (is_connected_true m) as Hct.
    split; intros Hs; rewrite Hs.
    + destruct (is_connected m); [| reflexivity].
      assert (silence m < silence_max) by (apply Hc, Hct; reflexivity).
      destruct (Z.eqb_spec 0 silence_max); [lia | reflexivity].
    + destruct (Z.ltb_spec (silence m) silence_max) as [Hlow | Hhigh].
      * assert (Hl : silence_lt_max silence_max m = true)
          by (apply Hlt; lia).
        rewrite Hl. reflexivity.
      * assert (Hl : silence_lt_max silence_max m = false).
        { apply not_true_is_false. intros E. apply Hlt in E. lia. }
        rewrite Hl.
        destruct (is_connected m); [| reflexivity].
        assert (silence m < silence_max) by (apply Hc, Hct; reflexivity).
        lia.
  - intros inputs. induction inputs as [| i rest IH]; intros m Hint Hall.
    + apply Z.le_refl.
    + inversion Hall as [| ? ? Hi Hrest]; subst.
      destruct (silent_block_counter g frames format channels silence_max
                  Hmax i m Hint Hi) as [Hle Hint'].
      cbn [run_loop].
      destruct (run_body g frames format channels silence_max i m)
        as [[f m1] evs1].
      unfold machine_of in Hle, Hint'; cbn [fst snd] in Hle, Hint'.
      specialize (IH m1 Hint' Hrest).
      destruct (run_loop g frames format channels silence_max rest m1)
        as [[s m2] evs2].
      unfold machine_of in *; cbn [fst snd] in *.
      destruct f; cbn [fst snd]; lia.
Qed.

End CounterUpdate.

Lemma silence_counter_update_witness :
  threshold_ok 3 /\ is_int (silence (Machine 1 2 4 [4])) /\
  in_size loud_block = 2 /\ 2 <> 0 /\
  silence (machine_of (run_body sample_globals 2 SND_PCM_FORMAT_S8 1 3
                                loud_block (Machine 1 2 4 [4]))) = 0.
Proof.
  assert (Hint : is_int (silence (Machine 1 2 4 [4])))
    by (unfold is_int, INT_MAX; cbn; lia).
  assert (Hsize : in_size loud_block = 2) by reflexivity.
  assert (Hf : 2 <> 0) by lia.
  split; [exact threshold_ok_3 |]. split; [exact Hint |].
  split; [exact Hsize |]. split; [exact Hf |].
  exact (proj1 (proj2 (silence_counter_update sample_globals 2
                         SND_PCM_FORMAT_S8 1 3 threshold_ok_3))
               loud_block (Machine 1 2 4 [4]) Hint Hsize Hf).
Defined.

(** ** What resets the counter *)

Section CounterReset.

Variable g : globals.
Variables (frames : Z) (format : snd_pcm_format_t).
Variables (channels silence_max : Z).

(** C2, amended. An iteration whose read is empty or not full leaves the
    silence counter as it was. With a threshold in range, an iteration
    that takes a counter other than 0 to 0 has read a full block that is
    not silent: nothing else resets the counter. *)
Theorem short_read_keeps_counter (i : input) (m : machine) :
  let m' :=
    machine_of (run_body g frames format channels silence_max i m) in
  (in_size i = 0 \/ in_size i <> frames -> silence m' = silence m) /\
  (threshold_ok silence_max -> is_int (silence m) ->
   silence m <> 0 -> silence m' = 0 ->
   in_size i = frames /\
   silent (in_buffer i) frames format channels = false).
Proof.
  cbv zeta.
  assert (Hkeep : in_size i = 0 \/ in_size i <> frames ->
                  silence (machine_of (run_body g frames format channels
                                                silence_max i m))
                  = silence m).
  { intros H. destruct (Z.eq_dec (in_size i) 0) as [Hz | Hnz].
    - rewrite run_body_zero by exact Hz. reflexivity.
    - rewrite run_body_error by tauto.
      unfold machine_of; cbn [fst snd].
      destruct (is_connected m); reflexivity. }
  split; [exact Hkeep |].
  intros Hmax Hint Hnz Hzero.
  destruct (Z.eq_dec (in_size i) 0) as [Hz | Hnz0].
  { rewrite Hkeep in Hzero by (left; exact Hz). contradiction. }
  destruct (Z.eq_dec (in_size i) frames) as [Hfull | Hshort].
  2: { rewrite Hkeep in Hzero by (right; exact Hshort). contradiction. }
  split; [exact Hfull |].
  assert (Hf : frames <> 0) by congruence.
  rewrite (full_read_counter_value g frames format channels silence_max
             Hmax i m Hint Hfull Hf) in Hzero.
  cbv zeta in Hzero.
  pose proof (silence_lt_max_int silence_max Hmax m Hint) as Hlt.
  destruct (silent (in_buffer i) frames format channels); [| reflexivity].
  exfalso. unfold threshold_ok in Hmax.
  destruct (silence_lt_max silence_max m).
  - assert (0 <= silence m < silence_max) by (apply Hlt; reflexivity).
    destruct (is_connected m && (silence m + 1 =? silence_max)); lia.
  - destruct (is_connected m && (silence m =? silence_max)); lia.
Qed.

End CounterReset.

Lemma short_read_keeps_counter_witness :
  ((in_size short_read = 0 \/ in_size short_read <> 2) /\
   silence (machine_of (run_body sample_globals 2 SND_PCM_FORMAT_S8 1 3
                                 short_read (Machine 1 2 4 [4]))) = 2) /\
  (threshold_ok 3 /\ is_int (silence (Machine 1 2 4 [4])) /\
   silence (Machine 1 2 4 [4]) <> 0 /\
   silence (machine_of (run_body sample_globals 2 SND_PCM_FORMAT_S8 1 3
                                 loud_block (Machine 1 2 4 [4]))) = 0 /\
   in_size loud_block = 2 /\
   silent (in_buffer loud_block) 2 SND_PCM_FORMAT_S8 1 = false).
Proof.
  assert (Hshort : in_size short_read = 0 \/ in_size short_read <> 2)
    by (right; cbn; lia).
  assert (Hint : is_int (silence (Machine 1 2 4 [4])))
    by (unfold is_int, INT_MAX; cbn; lia).
  assert (Hnz : silence (Machine 1 2 4 [4]) <> 0) by (cbn; lia).
  assert (Hzero : silence (machine_of (run_body sample_globals 2
                                         SND_PCM_FORMAT_S8 1 3 loud_block
                                         (Machine 1 2 4 [4]))) = 0)
    by reflexivity.
  split.
  - split; [exact Hshort |].
    exact (proj1 (short_read_keeps_counter sample_globals 2
                    SND_PCM_FORMAT_S8 1 3 short_read (Machine 1 2 4 [4]))
                 Hshort).
  - split; [exact threshold_ok_3 |]. split; [exact Hint |].
    split; [exact Hnz |]. split; [exact Hzero |].
    exact (proj2 (short_read_keeps_counter sample_globals 2
                    SND_PCM_FORMAT_S8 1 3 loud_block (Machine 1 2 4 [4]))
                 threshold_ok_3 Hint Hnz Hzero).
Defined.

(** ** A threshold of zero *)

Lemma main_silence_max_zero (rate frames : Z) :
  0 <= 5 * rate < frames -> 5 * rate <= UINT_MAX ->
  main_silence_max rate frames = 0.
Proof.
  intros Hr Hu. unfold main_silence_max.
  rewrite (to_unsigned_small (5 * rate)) by lia.
  rewrite Z.quot_small by lia. reflexivity.
Qed.

Lemma to_unsigned_not_negative (z : Z) : (to_unsigned z <? 0) = false.
Proof. apply Z.ltb_ge. apply to_unsigned_range. Qed.

Section ZeroThreshold.

Variable g : globals.
Variables (frames : Z) (format : snd_pcm_format_t) (channels : Z).

Lemma run_body_zero_threshold (i : input) (s p : Z) (fds : list Z) :
  exists f s',
    run_body g frames format channels 0 i (Machine 0 s p fds)
    = (f, Machine 0 s' p fds,
       ev_readi (in_size i)
       :: (if (in_size i =? 0) || (in_size i =? frames)
              || (in_size i =? - ENODEV)
           then [] else [ev_nanosleep 1 0])).
Proof.
  destruct (Z.eqb_spec (in_size i) 0) as [Hz | Hnz].
  { exists Continue, s. rewrite run_body_zero by exact Hz.
    rewrite Hz. reflexivity. }
  destruct (Z.eqb_spec (in_size i) frames) as [Hfull | Hshort].
  - assert (Hf : frames <> 0) by congruence.
    rewrite (run_body_unconnected_full g frames format channels 0 i s p fds
               Hfull Hf).
    cbv zeta. rewrite to_unsigned_not_negative, Hfull.
    eexists. eexists. reflexivity.
  - rewrite run_body_error by assumption.
    cbn [is_connected connected Z.eqb negb orb app].
    eexists. exists s. reflexivity.
Qed.

Lemma run_loop_zero_threshold (inputs : list input) :
  forall s p fds,
    let r := run_loop g frames format channels 0 inputs
               (Machine 0 s p fds) in
    forallb is_read_or_sleep (events_of r) = true /\
    connected (machine_of r) = 0 /\
    open_fds (machine_of r) = fds.
Proof.
  induction inputs as [| i rest IH]; intros s p fds; cbv zeta.
  - repeat split.
  - cbn [run_loop].
    destruct (run_body_zero_threshold i s p fds) as (f & s' & Hbody).
    rewrite Hbody.
    assert (Hevs : forallb is_read_or_sleep
                     (ev_readi (in_size i)
                      :: (if (in_size i =? 0) || (in_size i =? frames)
                             || (in_size i =? - ENODEV)
                          then [] else [ev_nanosleep 1 0])) = true)
      by (destruct (_ || _); reflexivity).
    specialize (IH s' p fds). cbv zeta in IH.
    destruct (run_loop g frames format channels 0 rest (Machine 0 s' p fds))
      as [[st m2] evs2].
    cbn [machine_of events_of fst snd] in IH.
    destruct IH as (He & Hc & Hfds).
    destruct f; cbn [machine_of events_of fst snd connected open_fds];
      rewrite ?forallb_app, ?Hevs, ?He; repeat split; assumption.
Qed.

(** X8. A block longer than five seconds of audio ([frames > 5 * rate])
    makes [main] pass a threshold of zero, and with it the loop never opens
    the pipe: whatever it reads, it only reads and sleeps, runs no hook,
    writes nothing and stays unconnected. *)
Theorem oversized_block_never_connects (rate garbage : Z)
    (inputs : list input) :
  0 <= 5 * rate < frames -> 5 * rate <= UINT_MAX ->
  let r := run g frames format channels (main_silence_max rate frames)
               garbage inputs in
  forallb is_read_or_sleep (events_of r) = true /\
  connected (machine_of r) = 0 /\
  open_fds (machine_of r) = [].
Proof.
  intros Hr Hu. rewrite (main_silence_max_zero rate frames Hr Hu).
  apply (run_loop_zero_threshold inputs 0 garbage []).
Qed.

End ZeroThreshold.

Lemma oversized_block_never_connects_witness :
  0 <= 5 * 8000 < 65536 /\ 5 * 8000 <= UINT_MAX /\
  forallb is_read_or_sleep
    (events_of
       (run sample_globals 65536 SND_PCM_FORMAT_S8 1
            (main_silence_max 8000 65536) 0
            [loud_block; short_read; device_gone])) = true.
Proof.
  assert (Hr : 0 <= 5 * 8000 < 65536) by lia.
  assert (Hu : 5 * 8000 <= UINT_MAX) by (unfold UINT_MAX; lia).
  split; [exact Hr |]. split; [exact Hu |].
  exact (proj1 (oversized_block_never_connects sample_globals 65536
                  SND_PCM_FORMAT_S8 1 8000 0
                  [loud_block; short_read; device_gone] Hr Hu)).
Defined.

(** ** Blocks that carry sound *)

Section Forwarding.

Variable g : globals.
Variables (frames : Z) (format : snd_pcm_format_t).
Variables (channels silence_max : Z).

(** X9. With a threshold above zero, a full block that is not silent is
    always passed on: whether the loop was connected or not, and whatever
    the counter was, provided [open] succeeds where it is needed, the
    iteration resets the counter, ends connected with the pipe as its only
    open descriptor, and calls [write] exactly once, on that descriptor, with
    this block. *)
Theorem loud_block_is_written (i : input) (m : machine) :
  in_size i = frames -> frames <> 0 ->
  silent (in_buffer i) frames format channels = false ->
  0 < silence_max ->
  handle_matches_state m ->
  connected m = 1 \/ 0 <= in_open i ->
  let r := run_body g frames format channels silence_max i m in
  flow_of r = write_flow i /\
  connected (machine_of r) = 1 /\
  silence (machine_of r) = 0 /\
  open_fds (machine_of r) = [pipefd (machine_of r)] /\
  filter is_write (events_of r)
  = [ev_write (pipefd (machine_of r)) (in_buffer i)
              (bufsize frames format channels) (in_write i)].
Proof.
  intros Hsize Hf Hloud Hmax Hm Hopen. cbv zeta.
  assert (Hlt0 : (to_unsigned 0 <? silence_max) = true)
    by (apply Z.ltb_lt; exact Hmax).
  destruct m as [c s p fds].
  destruct Hm as [[Hc Hfds] | [Hc Hfds]];
    cbn [connected open_fds pipefd] in Hc, Hfds, Hopen; subst c fds.
  - destruct Hopen as [H | Hopen]; [discriminate |].
    rewrite (run_body_unconnected_full g frames format channels silence_max
               i s p [] Hsize Hf).
    cbv zeta. rewrite Hloud, Hlt0.
    destruct (Z.ltb_spec (in_open i) 0) as [| _]; [lia |].
    cbn [flow_of machine_of events_of fst snd connected silence open_fds
         pipefd filter is_write].
    rewrite filter_app, writes_write_trace. unfold connect_trace.
    cbn [filter is_write]. rewrite filter_hook_trace by reflexivity.
    repeat split.
  - rewrite (run_body_full_cases g frames format channels silence_max i _
               Hsize Hf).
    cbv zeta.
    assert (H1 : machine_of (detect_silence frames format channels
                               silence_max (in_buffer i) (Machine 1 s p [p]))
                 = Machine 1 0 p [p])
      by (rewrite detect_silence_eq, Hloud; reflexivity).
    rewrite H1. rewrite disconnect_on_silence_eq.
    assert (Heq : silence_eq_max silence_max (Machine 1 0 p [p]) = false)
      by (unfold silence_eq_max; cbn [silence];
          change (to_unsigned 0) with 0; apply Z.eqb_neq; lia).
    rewrite Heq, andb_false_r.
    cbn [machine_of events_of fst snd app].
    change (silence_lt_max silence_max (Machine 1 0 p [p]))
      with (to_unsigned 0 <? silence_max).
    rewrite Hlt0.
    cbn [is_connected connected Z.eqb negb flow_of machine_of events_of
         fst snd silence open_fds pipefd filter is_write].
    rewrite writes_write_trace. repeat split.
Qed.

End Forwarding.

Lemma loud_block_is_written_witness :
  let r := run_body sample_globals 2 SND_PCM_FORMAT_S8 1 3 loud_block
             (Machine 0 4 9 []) in
  in_size loud_block = 2 /\
  silent (in_buffer loud_block) 2 SND_PCM_FORMAT_S8 1 = false /\
  handle_matches_state (Machine 0 4 9 []) /\
  silence (machine_of r) = 0 /\
  filter is_write (events_of r)
  = [ev_write (pipefd (machine_of r)) [x05; x06] 2 2].
Proof.
  cbv zeta.
  assert (Hm : handle_matches_state (Machine 0 4 9 []))
    by (left; split; reflexivity).
  split; [reflexivity |]. split; [reflexivity |]. split; [exact Hm |].
  assert (Hopen : connected (Machine 0 4 9 []) = 1 \/ 0 <= in_open loud_block)
    by (right; unfold loud_block; cbn [in_open]; lia).
  destruct (loud_block_is_written sample_globals 2 SND_PCM_FORMAT_S8 1 3
              loud_block (Machine 0 4 9 []) eq_refl ltac:(lia) eq_refl
              ltac:(lia) Hm Hopen)
    as (_ & _ & Hs & _ & Hw).
  split; [exact Hs | exact Hw].
Defined.

(** ** How the loop ends, and what it closes *)

Section Endings.

Variable g : globals.
Variables (frames : Z) (format : snd_pcm_format_t).
Variables (channels silence_max : Z).

Lemma write_flow_return (i : input) :
  write_flow i = Return ->
  in_write i = -1 /\ would_block (in_errno i) = false.
Proof.
  unfold write_flow.
  destruct (Z.eqb_spec (in_write i) (-1)) as [Hw |]; [| discriminate].
  destruct (would_block (in_errno i)); [discriminate |].
  intros _. split; [exact Hw | reflexivity].
Qed.

Lemma in_write_trace (i : input) (m : machine) :
  In (ev_write (pipefd m) (in_buffer i) (bufsize frames format channels)
               (in_write i))
     (write_trace frames format channels i m).
Proof. left. reflexivity. Qed.

(** X14. [run] returns for three reasons only: the read reported [-ENODEV],
    or [open] failed, or [write] failed with an error other than [EAGAIN]
    and [EWOULDBLOCK]. No other iteration ends the loop. *)
Theorem run_returns_only_on_fatal (i : input) (m : machine) :
  let r := run_body g frames format channels silence_max i m in
  flow_of r = Return ->
  (in_size i = - ENODEV /\ in_size i <> frames) \/
  (in_size i = frames /\ in_open i < 0 /\
   In (ev_open (pipename g) (in_open i)) (events_of r)) \/
  (in_size i = frames /\ in_write i = -1 /\
   would_block (in_errno i) = false /\
   exists fd,
     In (ev_write fd (in_buffer i) (bufsize frames format channels) (-1))
        (events_of r)).
Proof.
  cbv zeta.
  destruct (Z.eq_dec (in_size i) 0) as [Hz | Hnz].
  { rewrite run_body_zero by exact Hz. discriminate. }
  destruct (Z.eq_dec (in_size i) frames) as [Hfull | Hshort].
  2: { rewrite run_body_error by assumption. cbn [flow_of fst].
       destruct (Z.eqb_spec (in_size i) (- ENODEV)); [| discriminate].
       intros _. left. split; assumption. }
  assert (Hf : frames <> 0) by congruence.
  rewrite (run_body_full_cases g frames format channels silence_max i m
             Hfull Hf).
  cbv zeta.
  set (r2 := disconnect_on_silence g silence_max _ _).
  destruct (silence_lt_max silence_max (machine_of r2)); [| discriminate].
  destruct (is_connected (machine_of r2)).
  - cbn [flow_of events_of fst snd]. intros Hret.
    destruct (write_flow_return i Hret) as [Hw Hb].
    right. right. repeat split; trivial.
    exists (pipefd (machine_of r2)). right. apply in_or_app. right.
    rewrite <- Hw. apply in_write_trace.
  - destruct (Z.ltb_spec (in_open i) 0) as [Hneg | Hpos].
    + intros _. right. left. repeat split; trivial.
      cbn [events_of snd]. right. apply in_or_app. right.
      right. left. reflexivity.
    + cbn [flow_of events_of fst snd]. intros Hret.
      destruct (write_flow_return i Hret) as [Hw Hb].
      right. right. repeat split; trivial.
      exists (in_open i). right. apply in_or_app. right.
      apply in_or_app. right.
      rewrite <- Hw.
      apply (in_write_trace i (connected_on (in_open i) (machine_of r2))).
Qed.

Lemma closes_hook_trace (hook : option string) (pid : fork_result) :
  filter is_close (hook_trace hook pid) = [].
Proof. apply filter_hook_trace; reflexivity. Qed.

Lemma closes_write_trace (i : input) (m : machine) :
  filter is_close (write_trace frames format channels i m) = [].
Proof.
  unfold write_trace. cbn [filter is_close]. destruct (_ && _); reflexivity.
Qed.

Lemma closes_connect_trace (i : input) :
  filter is_close (connect_trace g i) = [].
Proof.
  unfold connect_trace. cbn [filter is_close]. apply closes_hook_trace.
Qed.

Lemma detect_silence_keeps_pipe (buffer : buffer_t) (m : machine) :
  let m1 := machine_of (detect_silence frames format channels silence_max
                          buffer m) in
  connected m1 = connected m /\ pipefd m1 = pipefd m /\
  open_fds m1 = open_fds m.
Proof.
  cbv zeta. rewrite detect_silence_eq. cbn [machine_of fst snd].
  destruct (silent _ _ _ _); [destruct (silence_lt_max _ _) |];
    repeat split.
Qed.

(** The calls of [close] in an iteration that starts with the pipe and
    [connected] in step. *)
Lemma run_body_closes (i : input) (m : machine) :
  handle_matches_state m ->
  let r := run_body g frames format channels silence_max i m in
  filter is_close (events_of r) = [] \/
  (filter is_close (events_of r) = [ev_close (pipefd m)] /\
   connected m = 1 /\ open_fds m = [pipefd m]).
Proof.
  intros Hm. cbv zeta.
  assert (Hopen : is_connected m = true ->
                  connected m = 1 /\ open_fds m = [pipefd m]).
  { intros Hc. apply is_connected_true in Hc.
    destruct Hm as [[H0 _] | H1]; [contradiction | exact H1]. }
  destruct (Z.eq_dec (in_size i) 0) as [Hz | Hnz].
  { rewrite run_body_zero by exact Hz. left. reflexivity. }
  destruct (Z.eq_dec (in_size i) frames) as [Hfull | Hshort].
  2: { rewrite run_body_error by assumption.
       cbn [events_of snd filter is_close]. rewrite filter_app.
       assert (Hsleep :
         filter is_close
           (if in_size i =? - ENODEV then [] else [ev_nanosleep 1 0]) = [])
         by (destruct (in_size i =? - ENODEV); reflexivity).
       rewrite Hsleep, app_nil_r.
       destruct (is_connected m) eqn:Hc; [| left; reflexivity].
       right. cbn [filter is_close].
       rewrite filter_app, closes_hook_trace.
       split; [reflexivity | apply Hopen; reflexivity]. }
  assert (Hf : frames <> 0) by congruence.
  rewrite (run_body_full_cases g frames format channels silence_max i m
             Hfull Hf).
  cbv zeta.
  destruct (detect_silence_keeps_pipe (in_buffer i) m) as (Hc1 & Hp1 & _).
  cbv zeta in Hc1, Hp1.
  set (m1 := machine_of (detect_silence _ _ _ _ _ m)) in *.
  assert (Hcon1 : is_connected m1 = is_connected m)
    by (unfold is_connected; rewrite Hc1; reflexivity).
  assert (H2 :
    filter is_close
      (events_of (disconnect_on_silence g silence_max
                    (in_fork_disconnect i) m1)) = [] \/
    (filter is_close
       (events_of (disconnect_on_silence g silence_max
                     (in_fork_disconnect i) m1)) = [ev_close (pipefd m)] /\
     connected m = 1 /\ open_fds m = [pipefd m])).
  { rewrite disconnect_on_silence_eq, Hcon1.
    destruct (is_connected m) eqn:Hc; cbn [andb]; [| left; reflexivity].
    destruct (silence_eq_max silence_max m1); [| left; reflexivity].
    right. cbn [events_of snd filter is_close].
    rewrite filter_app, closes_hook_trace, Hp1.
    split; [reflexivity | apply Hopen; reflexivity]. }
  set (r2 := disconnect_on_silence g silence_max _ m1) in *.
  assert (Hall : forall rest,
            filter is_close rest = [] ->
            filter is_close (ev_readi frames :: events_of r2 ++ rest)
            = filter is_close (events_of r2)).
  { intros rest Hrest. cbn [filter is_close].
    rewrite filter_app, Hrest, app_nil_r. reflexivity. }
  destruct (silence_lt_max silence_max (machine_of r2));
    [destruct (is_connected (machine_of r2));
     [| destruct (in_open i <? 0)] |];
    cbn [events_of snd].
  - rewrite Hall by apply closes_write_trace. exact H2.
  - rewrite Hall by reflexivity. exact H2.
  - rewrite Hall
      by (rewrite filter_app, closes_connect_trace, closes_write_trace;
          reflexivity).
    exact H2.
  - cbn [filter is_close]. exact H2.
Qed.

(** X15. The loop closes nothing but its open pipe: in every state that
    [run] reaches, if the next iteration calls [close], the loop is
    connected and the descriptor it closes is [pipefd], the one descriptor
    that is open; it closes it once. The uninitialised [pipefd] is never
    closed, and no descriptor is closed twice. *)
Theorem close_only_closes_open_pipe (garbage : Z) (inputs : list input)
    (i : input) (fd : Z) :
  let m :=
    machine_of (run g frames format channels silence_max garbage inputs) in
  let r := run_body g frames format channels silence_max i m in
  In (ev_close fd) (events_of r) ->
  connected m = 1 /\ open_fds m = [fd] /\
  filter is_close (events_of r) = [ev_close fd].
Proof.
  cbv zeta. unfold run. intros Hin.
  assert (Hm : handle_matches_state
                 (machine_of (run_loop g frames format channels silence_max
                                       inputs (initial garbage)))).
  { apply run_loop_handle. left. split; reflexivity. }
  set (m := machine_of _) in *.
  assert (Hin' : In (ev_close fd)
                    (filter is_close
                       (events_of (run_body g frames format channels
                                            silence_max i m))))
    by (apply filter_In; split; [exact Hin | reflexivity]).
  destruct (run_body_closes i m Hm) as [Hnone | (Hone & Hc & Hfds)];
    cbv zeta in *.
  - rewrite Hnone in Hin'. destruct Hin'.
  - rewrite Hone in Hin'. destruct Hin' as [Heq | []].
    injection Heq as Hfd. rewrite Hone, Hfds, Hfd.
    repeat split. exact Hc.
Qed.

End Endings.

Lemma run_returns_only_on_fatal_witness :
  let r := run_body sample_globals 2 SND_PCM_FORMAT_S8 1 3 device_gone
             (Machine 1 0 4 [4]) in
  flow_of r = Return /\
  ((in_size device_gone = - ENODEV /\ in_size device_gone <> 2) \/
   (in_size device_gone = 2 /\ in_open device_gone < 0 /\
    In (ev_open (pipename sample_globals) (in_open device_gone))
       (events_of r)) \/
   (in_size device_gone = 2 /\ in_write device_gone = -1 /\
    would_block (in_errno device_gone) = false /\
    exists fd,
      In (ev_write fd (in_buffer device_gone)
                   (bufsize 2 SND_PCM_FORMAT_S8 1) (-1))
         (events_of r))).
Proof.
  cbv zeta.
  assert (Hret : flow_of (run_body sample_globals 2 SND_PCM_FORMAT_S8 1 3
                            device_gone (Machine 1 0 4 [4])) = Return)
    by reflexivity.
  split; [exact Hret |].
  exact (run_returns_only_on_fatal sample_globals 2 SND_PCM_FORMAT_S8 1 3
           device_gone (Machine 1 0 4 [4]) Hret).
Defined.

Lemma close_only_closes_open_pipe_witness :
  let m :=
    machine_of (run sample_globals 2 SND_PCM_FORMAT_S8 1 3 9 [loud_block]) in
  let r := run_body sample_globals 2 SND_PCM_FORMAT_S8 1 3 short_read m in
  In (ev_close 4) (events_of r) /\
  connected m = 1 /\ open_fds m = [4] /\
  filter is_close (events_of r) = [ev_close 4].
Proof.
  cbv zeta.
  assert (Hin : In (ev_close 4)
                   (events_of
                      (run_body sample_globals 2 SND_PCM_FORMAT_S8 1 3
                         short_read
                         (machine_of
                            (run sample_globals 2 SND_PCM_FORMAT_S8 1 3 9
                                 [loud_block])))))
    by (right; right; right; left; reflexivity).
  split; [exact Hin |].
  exact (close_only_closes_open_pipe sample_globals 2 SND_PCM_FORMAT_S8 1 3
           9 [loud_block] short_read 4 Hin).
Defined.

(** * [main] *)

Lemma reject_if_cases (cond : bool) (msg : main_message) :
  reject_if cond msg
  = if cond then (Exit 1, [mev_stderr msg]) else (Go tt, []).
Proof. destruct cond; reflexivity. Qed.

Lemma alsa_cases (call : alsa_call) (err : Z) (msg : Z -> main_message) :
  alsa call err msg
  = if err <? 0
    then (Exit 1, [mev_alsa call err; mev_stderr (msg err)])
    else (Go tt, [mev_alsa call err]).
Proof. unfold alsa. rewrite reject_if_cases. destruct (err <? 0); reflexivity. Qed.

(** The two ways in which [main] comes out of reading its arguments. *)
Lemma read_arguments_cases (sscanf : string -> scanned)
    (argv : list string) :
  let argc := Z.of_nat (List.length argv) in
  let option_length := fst (colons_to_spaces (nth 2 argv EmptyString)) in
  let sc := sscanf (snd (colons_to_spaces (nth 2 argv EmptyString))) in
  (4 <= argc /\ option_length < sizeof_sformat /\ 3 <= sc_count sc /\
   0 < frames_after sc /\
   exists format,
     lookup_format (sc_sformat sc) = Some format /\
     read_arguments sscanf argv
     = (Go (Options
              (Globals (nth 3 argv EmptyString)
                 (if 4 <? argc then Some (nth 4 argv EmptyString) else None)
                 (if 5 <? argc then Some (nth 5 argv EmptyString) else None))
              (nth 1 argv EmptyString) format (sc_rate sc) (sc_channels sc)
              (frames_after sc)),
        [])) \/
  ((argc < 4 \/ sizeof_sformat <= option_length \/ sc_count sc < 3 \/
    lookup_format (sc_sformat sc) = None \/ frames_after sc <= 0) /\
   exists msg, read_arguments sscanf argv = (Exit 1, [mev_stderr msg])).
Proof.
  cbv zeta. unfold read_arguments.
  destruct (colons_to_spaces (nth 2 argv EmptyString)) as [n buffer].
  cbn [fst snd]. rewrite !reject_if_cases.
  destruct (Z.ltb_spec (Z.of_nat (List.length argv)) 4) as [Hargc | Hargc].
  { right. split; [tauto |]. eexists. reflexivity. }
  destruct (Z.leb_spec sizeof_sformat n) as [Hlen | Hlen].
  { right. split; [tauto |]. eexists. reflexivity. }
  destruct (Z.ltb_spec (sc_count (sscanf buffer)) 3) as [Hcount | Hcount].
  { right. split; [tauto |]. eexists. reflexivity. }
  destruct (lookup_format (sc_sformat (sscanf buffer))) as [format |] eqn:Hf.
  2: { right. split; [tauto |]. eexists. reflexivity. }
  destruct (Z.leb_spec (frames_after (sscanf buffer)) 0) as [Hfr | Hfr].
  { right. split; [tauto |]. eexists. reflexivity. }
  left. repeat (split; [lia || assumption |]).
  exists format. split; reflexivity.
Qed.

(** The two ways in which [main] comes out of opening the device. Neither
    calls [run] or closes the device. *)
Lemma open_device_cases (answers : alsa_answers) (o : options) :
  exists evs,
    existsb is_run evs = false /\ existsb is_pcm_close evs = false /\
    ((open_device answers o = (Go (a_rate answers), evs) /\
      0 <= a_open answers /\ 0 <= a_params_malloc answers /\
      0 <= a_params_any answers /\ 0 <= a_set_access answers /\
      0 <= a_set_format answers /\ 0 <= a_set_rate_near answers /\
      0 <= a_set_channels answers /\ 0 <= a_hw_params answers /\
      0 <= a_prepare answers) \/
     open_device answers o = (Exit 1, evs)).
Proof.
  unfold open_device. rewrite !alsa_cases.
  repeat match goal with
         | |- context [?err <? 0] =>
             destruct (Z.ltb_spec err 0);
             [cbv [and_then go note app];
              refine (ex_intro _ _ (conj _ (conj _ (or_intror eq_refl))));
              reflexivity |]
         end.
  cbv [and_then go note app].
  refine (ex_intro _ _ (conj _ (conj _ (or_introl (conj eq_refl _)))));
    [reflexivity | reflexivity |].
  repeat split; assumption.
Qed.

Lemma capture_cases (answers : alsa_answers) (garbage : Z)
    (inputs : list input) (o : options) (rate : Z) :
  let block :=
    mev_malloc (bufsize (opt_frames o) (opt_format o) (opt_channels o))
               (a_malloc answers) in
  let r :=
    run (opt_globals o) (opt_frames o) (opt_format o) (opt_channels o)
        (main_silence_max rate (opt_frames o)) garbage inputs in
  capture answers garbage inputs o rate =
  if a_malloc answers then
    match fst (fst r) with
    | Returned =>
        (Exit 0,
         [block; mev_run (events_of r); mev_alsa_unchecked snd_pcm_close])
    | Reading => (InLoop, [block; mev_run (events_of r)])
    end
  else (Exit 1, [block; mev_stderr msg_cannot_allocate_memory]).
Proof.
  cbv zeta. unfold capture, call_run. rewrite reject_if_cases.
  destruct (a_malloc answers); [| reflexivity].
  destruct (run _ _ _ _ _ garbage inputs) as [[[] m] evs]; reflexivity.
Qed.

Lemma main_stages (sscanf : string -> scanned) (answers : alsa_answers)
    (garbage : Z) (inputs : list input) (argv : list string) :
  main sscanf answers garbage inputs argv =
  match read_arguments sscanf argv with
  | (Go o, evs1) =>
      match open_device answers o with
      | (Go rate, evs2) =>
          let (p, evs3) := capture answers garbage inputs o rate in
          (p, mev_ignore SIGPIPE :: mev_ignore SIGCHLD
              :: evs1 ++ evs2 ++ evs3)
      | (Exit status, evs2) =>
          (Exit status,
           mev_ignore SIGPIPE :: mev_ignore SIGCHLD :: evs1 ++ evs2)
      | (InLoop, evs2) =>
          (InLoop, mev_ignore SIGPIPE :: mev_ignore SIGCHLD :: evs1 ++ evs2)
      end
  | (Exit status, evs1) =>
      (Exit status, mev_ignore SIGPIPE :: mev_ignore SIGCHLD :: evs1)
  | (InLoop, evs1) =>
      (InLoop, mev_ignore SIGPIPE :: mev_ignore SIGCHLD :: evs1)
  end.
Proof.
  unfold main.
  destruct (read_arguments sscanf argv) as [[o | status |] evs1];
    try reflexivity.
  cbn [and_then note app].
  destruct (open_device answers o) as [[rate | status |] evs2];
    try reflexivity.
  cbn [and_then].
  destruct (capture answers garbage inputs o rate) as [p evs3].
  reflexivity.
Qed.

Lemma not_in_run (evs : list main_event) (loop : list event) :
  existsb is_run evs = false -> ~ In (mev_run loop) evs.
Proof.
  intros Hnone Hin.
  assert (Hsome : existsb is_run evs = true)
    by (apply existsb_exists; exists (mev_run loop); split; trivial).
  congruence.
Qed.

Section Main.

Variable sscanf : string -> scanned.
Variable answers : alsa_answers.
Variables (garbage : Z) (inputs : list input) (argv : list string).

(** X11. A command line that [main] does not accept (fewer than three
    arguments, a format option of 32 characters or more, fewer than three
    fields converted, a sample format that is not one of the eight names, or
    a frame count that is not positive) makes it return 1 after a line on
    [stderr], before it has called the sound library, allocated the block or
    entered the loop. *)
Theorem main_rejects_bad_options :
  let argc := Z.of_nat (List.length argv) in
  let option_length := fst (colons_to_spaces (nth 2 argv EmptyString)) in
  let sc := sscanf (snd (colons_to_spaces (nth 2 argv EmptyString))) in
  argc < 4 \/ sizeof_sformat <= option_length \/ sc_count sc < 3 \/
  lookup_format (sc_sformat sc) = None \/ frames_after sc <= 0 ->
  let r := main sscanf answers garbage inputs argv in
  exit_status r = Some 1 /\
  forallb is_setup_or_message (snd r) = true /\
  exists msg, In (mev_stderr msg) (snd r).
Proof.
  cbv zeta. intros Hbad. rewrite main_stages.
  destruct (read_arguments_cases sscanf argv)
    as [(H1 & H2 & H3 & H4 & format & H5 & _) | [_ [msg Hread]]];
    cbv zeta in *.
  - exfalso.
    destruct Hbad as [H | [H | [H | [H | H]]]]; try lia. congruence.
  - rewrite Hread. split; [reflexivity |]. split; [reflexivity |].
    exists msg. right. right. left. reflexivity.
Qed.

(** X12. [main] enters the loop only after everything has been checked:
    when its trace shows a call of [run], the command line was accepted,
    every call of the sound library answered without error, the block was
    allocated, and [run] was called with the pipe and hooks of the command
    line, the format, channels and frames of the format option (128 frames
    when it names none), and the threshold [5 * rate / frames] computed
    from the rate the sound card has settled on; for a rate of up to
    400 MHz that threshold is in range. *)
Theorem main_runs_only_validated (loop : list event) :
  In (mev_run loop) (snd (main sscanf answers garbage inputs argv)) ->
  let argc := Z.of_nat (List.length argv) in
  let option_length := fst (colons_to_spaces (nth 2 argv EmptyString)) in
  let sc := sscanf (snd (colons_to_spaces (nth 2 argv EmptyString))) in
  let frames := frames_after sc in
  let silence_max := main_silence_max (a_rate answers) frames in
  4 <= argc /\ option_length < sizeof_sformat /\ 3 <= sc_count sc /\
  0 < frames /\
  (0 <= a_open answers /\ 0 <= a_params_malloc answers /\
   0 <= a_params_any answers /\ 0 <= a_set_access answers /\
   0 <= a_set_format answers /\ 0 <= a_set_rate_near answers /\
   0 <= a_set_channels answers /\ 0 <= a_hw_params answers /\
   0 <= a_prepare answers) /\
  a_malloc answers = true /\
  (0 <= a_rate answers <= 400000000 -> threshold_ok silence_max) /\
  exists format,
    lookup_format (sc_sformat sc) = Some format /\
    loop =
    events_of
      (run (Globals (nth 3 argv EmptyString)
              (if 4 <? argc then Some (nth 4 argv EmptyString) else None)
              (if 5 <? argc then Some (nth 5 argv EmptyString) else None))
           frames format (sc_channels sc) silence_max garbage inputs).
Proof.
  cbv zeta. rewrite main_stages.
  destruct (read_arguments_cases sscanf argv)
    as [(H1 & H2 & H3 & H4 & format & H5 & Hread) | [_ [msg Hread]]];
    cbv zeta in *; rewrite Hread.
  2: { cbn [snd]. intros [H | [H | [H | []]]]; discriminate. }
  set (o := Options _ _ _ _ _ _).
  destruct (open_device_cases answers o)
    as (evs2 & Hrun2 & _ & [(Hopen & Hanswers) | Hopen]); rewrite Hopen.
  2: { cbn [snd app]. intros [H | [H | H]]; try discriminate.
       exfalso. exact (not_in_run evs2 loop Hrun2 H). }
  pose proof (capture_cases answers garbage inputs o (a_rate answers))
    as Hcap.
  cbv zeta in Hcap. rewrite Hcap. clear Hcap.
  assert (Hin :
    forall tail,
      In (mev_run loop)
         (mev_ignore SIGPIPE :: mev_ignore SIGCHLD :: [] ++ evs2 ++ tail) ->
      In (mev_run loop) tail).
  { cbn [app]. intros tail [H | [H | H]]; try discriminate.
    apply in_app_or in H. destruct H as [H | H]; [| exact H].
    exfalso. exact (not_in_run evs2 loop Hrun2 H). }
  destruct (a_malloc answers) eqn:Hmalloc.
  2: { cbn [snd]. intros H. apply Hin in H.
       destruct H as [H | [H | []]]; discriminate. }
  intros H.
  assert (Heq : loop = events_of
             (run (opt_globals o) (opt_frames o) (opt_format o)
                  (opt_channels o)
                  (main_silence_max (a_rate answers) (opt_frames o))
                  garbage inputs)).
  { destruct (fst (fst (run (opt_globals o) (opt_frames o) (opt_format o)
                            (opt_channels o)
                            (main_silence_max (a_rate answers)
                                              (opt_frames o))
                            garbage inputs)));
      cbn [snd] in H; apply Hin in H;
      destruct H as [H | [H | H]]; try discriminate.
    - injection H as H. symmetry. exact H.
    - destruct H as [H | []]. discriminate.
    - injection H as H. symmetry. exact H.
    - destruct H. }
  split; [exact H1 |]. split; [exact H2 |]. split; [exact H3 |].
  split; [exact H4 |]. split; [exact Hanswers |].
  split; [reflexivity |].
  split; [intros Hrate; apply main_silence_max_ok; assumption |].
  exists format. split; [exact H5 | exact Heq].
Qed.

(** X13. [main] returns 0 exactly when [run] was called and has returned,
    whatever made it return, a failed [open] or [write] included, and it
    has then closed the device; it returns 1 in every other case, without
    closing the device; and as long as [run] has not returned the device
    stays open. *)
Theorem main_exit_status :
  let r := main sscanf answers garbage inputs argv in
  match fst r with
  | Exit status =>
      status = (if existsb is_run (snd r) then 0 else 1) /\
      existsb is_pcm_close (snd r) = existsb is_run (snd r)
  | InLoop =>
      existsb is_run (snd r) = true /\ existsb is_pcm_close (snd r) = false
  | Go _ => False
  end.
Proof.
  cbv zeta. rewrite main_stages.
  destruct (read_arguments_cases sscanf argv)
    as [(_ & _ & _ & _ & format & _ & Hread) | [_ [msg Hread]]];
    cbv zeta in *; rewrite Hread.
  2: { split; reflexivity. }
  set (o := Options _ _ _ _ _ _).
  destruct (open_device_cases answers o)
    as (evs2 & Hrun2 & Hclose2 & [(Hopen & _) | Hopen]); rewrite Hopen.
  2: { cbn [fst snd app existsb is_run is_pcm_close orb].
       rewrite Hrun2, Hclose2. split; reflexivity. }
  pose proof (capture_cases answers garbage inputs o (a_rate answers))
    as Hcap.
  cbv zeta in Hcap. rewrite Hcap. clear Hcap.
  destruct (a_malloc answers);
    [destruct (fst (fst (run _ _ _ _ _ garbage inputs))) |];
    cbn [fst snd app existsb is_run is_pcm_close orb];
    rewrite !existsb_app, Hrun2, Hclose2; split; reflexivity.
Qed.

End Main.

Lemma main_rejects_bad_options_witness :
  let argv := ["alsa2pipe"; "hw:0"; "s8:8000:1:0"; "/run/capture.fifo"]%string in
  let sscanf := fun _ : string => Scanned 4 "s8" 8000 1 0 in
  frames_after (sscanf (snd (colons_to_spaces (nth 2 argv EmptyString)))) <= 0
  /\ exit_status (main sscanf sample_answers 0 [loud_block] argv) = Some 1.
Proof.
  cbv zeta.
  assert (Hfr : frames_after (Scanned 4 "s8" 8000 1 0) <= 0)
    by (cbn; lia).
  split; [exact Hfr |].
  exact (proj1 (main_rejects_bad_options
                  (fun _ : string => Scanned 4 "s8" 8000 1 0)
                  sample_answers 0 [loud_block]
                  ["alsa2pipe"; "hw:0"; "s8:8000:1:0";
                   "/run/capture.fifo"]%string
                  (or_intror (or_intror (or_intror (or_intror Hfr)))))).
Defined.

Lemma main_runs_only_validated_witness :
  let loop :=
    events_of (run sample_globals 2 SND_PCM_FORMAT_S8 1 20000 0
                   [loud_block; device_gone]) in
  In (mev_run loop)
     (snd (main sample_sscanf sample_answers 0 [loud_block; device_gone]
                sample_argv)) /\
  a_malloc sample_answers = true.
Proof.
  cbv zeta.
  assert (Hin :
    In (mev_run
          (events_of (run sample_globals 2 SND_PCM_FORMAT_S8 1 20000 0
                          [loud_block; device_gone])))
       (snd (main sample_sscanf sample_answers 0 [loud_block; device_gone]
                  sample_argv))).
  { vm_compute. do 13 right. left. reflexivity. }
  split; [exact Hin |].
  exact (proj1 (proj2 (proj2 (proj2 (proj2 (proj2
           (main_runs_only_validated sample_sscanf sample_answers 0
              [loud_block; device_gone] sample_argv _ Hin))))))).
Defined.

(** X16. The loop over the format option gives [sscanf] a buffer whose
    length is the count it has made, no longer than the option, without a
    colon and without a NUL, and in which every character is the character
    of the option at the same place, or a space where that is a colon. So
    an option that passes the test against [sizeof(sformat)] leaves at most
    31 characters for the [%s] conversion into the 32 bytes of [sformat]. *)
Theorem colons_to_spaces_spec (s : string) :
  let n := fst (colons_to_spaces s) in
  let buffer := snd (colons_to_spaces s) in
  n = Z.of_nat (String.length buffer) /\
  (String.length buffer <= String.length s)%nat /\
  forall (k : nat) (c : ascii),
    String.get k buffer = Some c ->
    c <> ":"%char /\ c <> zero /\
    exists c0,
      String.get k s = Some c0 /\
      c = (if Ascii.eqb c0 ":" then " "%char else c0).
Proof.
  cbv zeta. induction s as [| c0 rest IH].
  - cbn. split; [reflexivity |]. split; [apply Nat.le_refl |].
    intros k c H. discriminate.
  - cbn [colons_to_spaces].
    destruct (Ascii.eqb_spec c0 zero) as [Hz | Hnz].
    + cbn. split; [reflexivity |]. split; [apply Nat.le_0_l |].
      intros k c H. discriminate.
    + destruct (colons_to_spaces rest) as [n buffer].
      cbn [fst snd] in *. destruct IH as (Hn & Hlen & Hget).
      cbn [String.length]. split; [lia |]. split; [lia |].
      intros [| k] c H; cbn [String.get] in *.
      * injection H as <-.
        destruct (Ascii.eqb_spec c0 ":") as [-> | Hcolon].
        -- split; [discriminate |]. split; [discriminate |].
           exists ":"%char. split; reflexivity.
        -- split; [exact Hcolon |]. split; [exact Hnz |].
           exists c0. split; [reflexivity |].
           destruct (Ascii.eqb_spec c0 ":"); [contradiction | reflexivity].
      * apply Hget. exact H.
Qed.
